(** * SeoAnalyzer: a shallow embedding of the heuristic analysis engine

    The development follows [server/services/seo-analyzer.ts] (class
    [SeoAnalyzer]) and the shared types of [shared/schema.ts].

    Conventions of the embedding.
    - A JavaScript string is a [string], one [ascii] for each of its code
      units: [.length] is the number of characters, and [toLowerCase] and
      [trim] act as JavaScript does on the code units below 256.  Texts with
      a code unit from 256 on are outside the model.  The texts of regular
      expressions are kept as written and are never interpreted here.
    - Scores are integers, kept in [Z].  Averages and ratios of counts that
      the source only compares with a constant, or multiplies by 15 and
      rounds, are exact rationals in [Q]: a quotient of two counts below 2^32
      is never closer to such a threshold than the rounding error of binary64
      without being equal to it, and equal values round alike.  The one place
      where the source can divide zero by zero keeps the NaN case apart.
    - The overall score, [Math.round((totalScore / 1200) * 100)], is sensitive
      to the rounding of the two binary64 operations; it is computed on
      [spec_float] with the parameters of binary64.
    - The regular-expression engine and the system clock belong to the
      JavaScript runtime, not to the analyzer: the engine takes them as the
      variables of a section, so every theorem holds whatever they answer. *)

From Stdlib Require Import ZArith QArith Qround Qminmax.
From Stdlib Require Import String Ascii List Bool Lia DecimalString.
From Stdlib Require Import Floats.SpecFloat.
Import ListNotations.

Open Scope string_scope.
Open Scope list_scope.
Open Scope Z_scope.

Infix "+++" := String.append (at level 60, right associativity).

(** ** The part of the JavaScript runtime the analyzer relies on *)

Module JS.

(** [s.length] *)
Definition length (s : string) : Z := Z.of_nat (String.length s).

(** Truthiness of a string: only the empty string is falsy. *)
Definition truthy (s : string) : bool := negb (s =? "")%string.

(** [String(n)] and the interpolation of an integer in a template. *)
Definition toString (n : Z) : string := NilZero.string_of_int (Z.to_int n).

(** The double-quote character, for templates that contain one. *)
Definition dquote : string := String (ascii_of_nat 34) "".

(** The line feed of the literals '\n' and '\n\n'. *)
Definition LF : string := String (ascii_of_nat 10) "".

(** The lower case of a code unit below 256: A-Z, and the capital letters
    U+00C0 to U+00DE but for the multiplication sign U+00D7. *)
Definition lower_ascii (c : ascii) : ascii :=
  let n := nat_of_ascii c in
  if orb (andb (65 <=? n)%nat (n <=? 90)%nat)
         (andb (andb (192 <=? n)%nat (n <=? 222)%nat) (negb (n =? 215)%nat))
  then ascii_of_nat (n + 32) else c.

(** [s.toLowerCase()] *)
Fixpoint toLowerCase (s : string) : string :=
  match s with
  | EmptyString => EmptyString
  | String c r => String (lower_ascii c) (toLowerCase r)
  end.

(** [s.startsWith(p)] *)
Definition startsWith (s p : string) : bool := String.prefix p s.

(** [s.includes(p)] *)
Fixpoint includes (s p : string) : bool :=
  match s with
  | EmptyString => String.prefix p EmptyString
  | String _ r => String.prefix p s || includes r p
  end.

(** [xs.includes(x)] on an array of strings. *)
Definition arrayIncludes (xs : list string) (x : string) : bool :=
  existsb (String.eqb x) xs.

(** The white space of [trim] among the code units below 256: tab to
    carriage return, the space and the no-break space U+00A0. *)
Definition isSpace (c : ascii) : bool :=
  let n := nat_of_ascii c in
  orb (andb (9 <=? n)%nat (n <=? 13)%nat) (orb (n =? 32)%nat (n =? 160)%nat).

Fixpoint trimStart (s : string) : string :=
  match s with
  | EmptyString => EmptyString
  | String c r => if isSpace c then trimStart r else s
  end.

Fixpoint rev_string (acc s : string) : string :=
  match s with
  | EmptyString => acc
  | String c r => rev_string (String c acc) r
  end.

(** [s.trim()] *)
Definition trim (s : string) : string :=
  rev_string "" (trimStart (rev_string "" (trimStart s))).

(** [s.split(sep)] for a non-empty literal separator: the pieces between
    the successive, non-overlapping occurrences of [sep], scanning from the
    left; [skip] counts the characters of a separator still to drop. *)
Fixpoint split_go (sep : string) (skip : nat) (acc s : string) : list string :=
  match s with
  | EmptyString => [rev_string "" acc]
  | String c r =>
      match skip with
      | S k => split_go sep k acc r
      | O =>
          if String.prefix sep s
          then rev_string "" acc :: split_go sep (String.length sep - 1) "" r
          else split_go sep 0 (String c acc) r
      end
  end.

Definition split (s sep : string) : list string := split_go sep 0 "" s.

(** [xs.length] of an array. *)
Definition count {A : Type} (xs : list A) : Z := Z.of_nat (List.length xs).

(** [xs.push(x)] on the array bound to a local name. *)
Definition push {A : Type} (xs : list A) (x : A) : list A := xs ++ [x].

(** [xs.slice(0, n)] *)
Definition slice0 {A : Type} (n : nat) (xs : list A) : list A := firstn n xs.

(** [xs.join(sep)] *)
Fixpoint join (sep : string) (xs : list string) : string :=
  match xs with
  | [] => ""
  | [x] => x
  | x :: r => x +++ sep +++ join sep r
  end.

(** [Math.round] on an exact value: the nearest integer, halves going up. *)
Definition Math_round (q : Q) : Z := Qfloor (q + (1 # 2)).

(** Strict comparison of two exact values. *)
Definition Qltb (x y : Q) : bool := negb (Qle_bool y x).

(** The quotient [a / b] of two array lengths: [NaN] for 0/0 and
    [Infinity] for a positive length over 0. *)
Inductive Quotient : Set := NaN | Infinity | Finite (q : Q).

Definition divide (a b : Z) : Quotient :=
  if b =? 0 then (if a =? 0 then NaN else Infinity)
  else Finite (inject_Z a / inject_Z b)%Q.

(** [x < c] for a finite constant [c]: false on [NaN] and on [Infinity]. *)
Definition below (x : Quotient) (c : Q) : bool :=
  match x with
  | NaN | Infinity => false
  | Finite q => Qltb q c
  end.

(** A regular-expression literal: its source text and its flags. *)
Record RegExp : Set := mkRegExp { source : string; flags : string }.

End JS.

(** ** Binary64 arithmetic, for the one computation that depends on it *)

Module Binary64.

Definition prec : Z := 53.
Definition emax : Z := 1024.

(** The number a (small) integer denotes. *)
Definition of_Z (z : Z) : spec_float := binary_normalize prec emax z 0 false.

Definition div : spec_float -> spec_float -> spec_float := SFdiv prec emax.
Definition mul : spec_float -> spec_float -> spec_float := SFmul prec emax.

(** [Math.round(x)] for a finite [x]: [floor(x + 1/2)], taken on the exact
    value [(-1)^s * m * 2^e].  An infinity or a NaN has no integer value; it
    is sent to 0 and [finite] tells the two cases apart. *)
Definition Math_round (x : spec_float) : Z :=
  match x with
  | S754_finite s m e =>
      let n := if s then Z.neg m else Z.pos m in
      if 0 <=? e then n * 2 ^ e
      else (2 * n + 2 ^ (- e)) / 2 ^ (1 - e)
  | _ => 0
  end.

Definition finite (x : spec_float) : bool :=
  match x with
  | S754_zero _ | S754_finite _ _ _ => true
  | _ => false
  end.

End Binary64.

(** ** Data model ([shared/schema.ts]) *)

Record Heading : Set := mkHeading { level : Z; text : string }.

Record Image : Set := mkImage { src : string; alt : string; hasAlt : bool }.

Record Link : Set := mkLink { href : string; link_text : string; isInternal : bool }.

Record WebsiteData : Set := mkWebsiteData {
  title : string;
  metaDescription : string;
  headings : list Heading;
  images : list Image;
  links : list Link;
  content : string;
  hasSchema : bool;
  schemaTypes : list string;
  loadTime : Z;
  wordCount : Z
}.

Inductive ResultType : Set := success | warning | error.

(** A value of [Record<string, string | number>]. *)
Inductive MetricValue : Set :=
| MNumber (n : Z)
| MString (s : string).

(** [TraditionalSeoResult]; [GeoResult] is the same shape without metrics. *)
Record SeoResult : Set := mkSeoResult {
  res_type : ResultType;
  res_title : string;
  res_description : string;
  res_details : option string;
  res_metrics : option (list (string * MetricValue))
}.

Record Analysis : Set := mkAnalysis { results : list SeoResult; score : Z }.

(** ** Traditional SEO checks *)

Definition analyzeTraditionalSeo (data : WebsiteData) : Analysis :=
  let results : list SeoResult := [] in
  let score := 0 in
  let maxScore := 100 in
  (* Title tag analysis *)
  let '(results, score) :=
    if negb (JS.truthy (title data)) then
      (JS.push results
         (mkSeoResult error "Missing title tag"
            "The page is missing a title tag, which is crucial for SEO."
            None None),
       score)
    else if JS.length (title data) <? 30 then
      (JS.push results
         (mkSeoResult warning "Title tag too short"
            "Title tag should be between 30-60 characters for optimal SEO."
            (Some ("Current: " +++ JS.dquote +++ title data +++ JS.dquote)) None),
       score + 10)
    else if JS.length (title data) >? 60 then
      (JS.push results
         (mkSeoResult warning "Title tag too long"
            "Title tag may be truncated in search results."
            (Some ("Current length: " +++ JS.toString (JS.length (title data))
                   +++ " characters")) None),
       score + 10)
    else
      (JS.push results
         (mkSeoResult success "Title tag length optimal"
            "Title tag length is within the recommended range."
            (Some ("Length: " +++ JS.toString (JS.length (title data))
                   +++ " characters")) None),
       score + 20) in
  (* Meta description analysis *)
  let '(results, score) :=
    if negb (JS.truthy (metaDescription data)) then
      (JS.push results
         (mkSeoResult error "Missing meta description"
            "Meta description is missing, which affects click-through rates."
            None None),
       score)
    else if JS.length (metaDescription data) <? 120 then
      (JS.push results
         (mkSeoResult warning "Meta description too short"
            "Meta description should be 120-160 characters for best results."
            (Some ("Current length: "
                   +++ JS.toString (JS.length (metaDescription data))
                   +++ " characters")) None),
       score + 10)
    else if JS.length (metaDescription data) >? 160 then
      (JS.push results
         (mkSeoResult warning "Meta description too long"
            "Meta description may be truncated in search results."
            (Some ("Current length: "
                   +++ JS.toString (JS.length (metaDescription data))
                   +++ " characters")) None),
       score + 10)
    else
      (JS.push results
         (mkSeoResult success "Meta description length optimal"
            "Meta description length is within the recommended range."
            (Some ("Length: "
                   +++ JS.toString (JS.length (metaDescription data))
                   +++ " characters")) None),
       score + 20) in
  (* Heading structure analysis *)
  let h1Count := JS.count (filter (fun h => level h =? 1) (headings data)) in
  let '(results, score) :=
    if h1Count =? 0 then
      (JS.push results
         (mkSeoResult error "Missing H1 tag"
            "Every page should have exactly one H1 tag." None None),
       score)
    else if h1Count >? 1 then
      (JS.push results
         (mkSeoResult warning "Multiple H1 tags found"
            "Use only one H1 per page and structure other headings hierarchically."
            None (Some [("H1 tags", MNumber h1Count)])),
       score + 10)
    else
      (JS.push results
         (mkSeoResult success "Proper H1 structure"
            "Page has exactly one H1 tag." None None),
       score + 15) in
  (* Image optimization analysis *)
  let imagesWithoutAlt :=
    JS.count (filter (fun img => negb (hasAlt img)) (images data)) in
  let '(results, score) :=
    if imagesWithoutAlt >? 0 then
      (JS.push results
         (mkSeoResult error "Missing alt text on images"
            (JS.toString imagesWithoutAlt
             +++ " images found without alt attributes, affecting accessibility and SEO.")
            None
            (Some [("Total images", MNumber (JS.count (images data)));
                   ("Missing alt", MNumber imagesWithoutAlt)])),
       score)
    else if JS.count (images data) >? 0 then
      (JS.push results
         (mkSeoResult success "All images have alt text"
            "Great job! All images have descriptive alt attributes."
            None (Some [("Total images", MNumber (JS.count (images data)))])),
       score + 15)
    else (results, score) in
  (* Schema markup analysis *)
  let '(results, score) :=
    if negb (hasSchema data) then
      (JS.push results
         (mkSeoResult warning "No schema markup found"
            "Consider adding structured data to help search engines understand your content."
            None None),
       score)
    else
      (JS.push results
         (mkSeoResult success "Schema markup present"
            "Structured data found on the page."
            (Some ("Types: " +++ JS.join ", " (schemaTypes data))) None),
       score + 15) in
  (* Page speed analysis (basic) *)
  let '(results, score) :=
    if loadTime data >? 3000 then
      (JS.push results
         (mkSeoResult warning "Slow page load time"
            "Page took longer than 3 seconds to load, which may affect user experience."
            None
            (Some [("Load time", MString (JS.toString (loadTime data) +++ "ms"))])),
       score)
    else
      (JS.push results
         (mkSeoResult success "Good page load time"
            "Page loads within acceptable time limits."
            None
            (Some [("Load time", MString (JS.toString (loadTime data) +++ "ms"))])),
       score + 15) in
  mkAnalysis results (Z.min score maxScore).

(** The three-valued scales of impacts, priorities and platform visibility. *)
Inductive Level : Set := low | medium | high.

Record BlogTitle : Set := mkBlogTitle { bt_title : string; target : string }.

Record Faq : Set := mkFaq { question : string; answer : string }.

Record PlatformVisibility : Set := mkPlatformVisibility {
  chatgpt : Level; perplexity : Level; claude : Level; bard : Level
}.

Record Improvement : Set := mkImprovement {
  imp_action : string;
  imp_description : string;
  imp_impact : Level;
  imp_priority : Z
}.

Record ContentSuggestions : Set := mkContentSuggestions {
  missingKeywords : list string;
  blogTitles : list BlogTitle;
  contentStructure : list string;
  faqs : list Faq;
  aiVisibility : PlatformVisibility;
  aiImprovements : list Improvement
}.

(** Status of a factor of the AI-visibility assessment. *)
Module Status.
Inductive t : Set := pass | warning | fail.
Definition eqb (a b : t) : bool :=
  match a, b with
  | pass, pass | warning, warning | fail, fail => true
  | _, _ => false
  end.
End Status.

Record Factor : Set := mkFactor {
  factor : string;
  f_score : Z;
  f_description : string;
  status : Status.t
}.

Record Recommendation : Set := mkRecommendation {
  priority : Level;
  action : string;
  description : string;
  impact : string
}.

(** [AiPlatformVisibility] *)
Record AiVisibility : Set := mkAiVisibility {
  overallScore : Z;
  summary : string;
  factors : list Factor;
  recommendations : list Recommendation
}.

(** The part of a stored [AuditReport] the engine produces and reads back. *)
Record AuditReport : Set := mkAuditReport {
  url : string;
  seoScore : Z;
  aiScore : Z;
  traditionalSeoResults : list SeoResult;
  geoResults : list SeoResult;
  contentSuggestions : ContentSuggestions
}.

Module Category.
Inductive t : Set := seo | ai | content | visibility.
Definition eqb (a b : t) : bool :=
  match a, b with
  | seo, seo | ai, ai | content, content | visibility, visibility => true
  | _, _ => false
  end.
End Category.

Record KeyDifference : Set := mkKeyDifference {
  category : Category.t;
  aspect : string;
  url1Value : string;
  url2Value : string;
  recommendation : string
}.

Record Differences : Set := mkDifferences {
  seoScoreDiff : Z;
  aiScoreDiff : Z;
  aiVisibilityDiff : Z;
  betterPerformer : string;
  keyDifferences : list KeyDifference
}.

(** ** In-memory storage of audit reports ([MemStorage])

    A JavaScript [Map] keeps its entries in insertion order; [set] on a key
    that is present replaces the value where it stands. *)

Module JSMap.

Definition t (V : Type) : Type := list (Z * V).

(** [m.get(k)]: [None] stands for [undefined]. *)
Fixpoint get {V : Type} (m : t V) (k : Z) : option V :=
  match m with
  | [] => None
  | (k', v) :: rest => if k' =? k then Some v else get rest k
  end.

(** [m.set(k, v)] *)
Fixpoint set {V : Type} (m : t V) (k : Z) (v : V) : t V :=
  match m with
  | [] => [(k, v)]
  | (k', v') :: rest =>
      if k' =? k then (k', v) :: rest else (k', v') :: set rest k v
  end.

(** [Array.from(m.values())] *)
Definition values {V : Type} (m : t V) : list V := map snd m.

End JSMap.

Module MemStorage.

(** A stored report: the inserted fields, the identifier and the creation
    time ([new Date()], kept as a number). *)
Record StoredReport : Set := mkStoredReport {
  id : Z;
  url : string;
  seoScore : Z;
  aiScore : Z;
  traditionalSeoResults : list SeoResult;
  geoResults : list SeoResult;
  contentSuggestions : ContentSuggestions;
  createdAt : Z
}.

Record t : Type := mkStorage {
  reports : JSMap.t StoredReport;
  currentId : Z
}.

(** The constructor. *)
Definition empty : t := mkStorage [] 1.

(** [createAuditReport(insertReport)], at the time [now]: the new state of
    the storage and the report returned. *)
Definition createAuditReport (now : Z) (insertReport : AuditReport) (s : t)
  : t * StoredReport :=
  let '(mkAuditReport url_ seoScore_ aiScore_ traditional_ geo_ suggestions_) :=
    insertReport in
  let id := currentId s in
  let currentId' := currentId s + 1 in (* this.currentId++ *)
  let report :=
    mkStoredReport id url_ seoScore_ aiScore_ traditional_ geo_ suggestions_ now in
  (mkStorage (JSMap.set (reports s) id report) currentId', report).

Definition getAuditReport (id : Z) (s : t) : option StoredReport :=
  JSMap.get (reports s) id.

Definition getAuditReportsByUrl (url_ : string) (s : t) : list StoredReport :=
  filter (fun report => (url report =? url_)%string) (JSMap.values (reports s)).

Definition getAllAuditReports (s : t) : list StoredReport :=
  JSMap.values (reports s).

(** The states a storage goes through: the empty one, and any state after
    one more [createAuditReport]. *)
Inductive reachable : t -> Prop :=
| reachable_empty : reachable empty
| reachable_create (now : Z) (insertReport : AuditReport) (s : t) :
    reachable s -> reachable (fst (createAuditReport now insertReport s)).

(** What holds of every reachable state: the keys are 1, 2, ... in the order
    of creation, the next identifier follows them, and each report is stored
    under its own identifier. *)
Definition wellFormed (s : t) : Prop :=
  map fst (reports s) = map Z.of_nat (seq 1 (List.length (reports s)))
  /\ currentId s = Z.of_nat (List.length (reports s)) + 1
  /\ Forall (fun kv => id (snd kv) = fst kv) (reports s).

(** The inserted fields of a stored report. *)
Definition inserted (r : StoredReport) : AuditReport :=
  mkAuditReport (url r) (seoScore r) (aiScore r) (traditionalSeoResults r)
    (geoResults r) (contentSuggestions r).

End MemStorage.

(** ** Presentation helpers of the client *)

(** The progress indicator shown while an analysis runs ([AnalysisProgress]):
    the state is the pair (progress, currentStep), updated every 200 ms. *)
Module AnalysisProgress.

Definition steps : list string :=
  ["Scraping website content"; "Analyzing SEO elements"; "Running GEO analysis";
   "Generating recommendations"].

(** The body of the interval callback. *)
Definition tick (st : Z * Z) : Z * Z :=
  let '(prev, _) := st in
  let newProgress := Z.min (prev + 8) 85 in
  let newStep := newProgress / 25 in (* Math.floor(newProgress / 25) *)
  (newProgress, newStep).

(** The state after [n] ticks, from [useState(0)] twice. *)
Fixpoint after (n : nat) : Z * Z :=
  match n with
  | O => (0, 0)
  | S k => tick (after k)
  end.

End AnalysisProgress.

(** ** The runtime services the engine is parameterised by *)

Section Engine.

(** [new Date().getFullYear()] *)
Variable currentYear : Z.

(** [s.match(re) || []] for a regular expression with the [g] flag: the
    matched substrings, from left to right. *)
Variable regexMatch : JS.RegExp -> string -> list string.

(** [re.test(s)] *)
Variable regexTest : JS.RegExp -> string -> bool.

(** [s.split(re)] *)
Variable regexSplit : JS.RegExp -> string -> list string.

(** ** GEO checks *)

Definition analyzeGeo (data : WebsiteData) : Analysis :=
  let results : list SeoResult := [] in
  let score := 0 in
  let maxScore := 100 in
  (* Content structure analysis *)
  let hasH2Structure := existsb (fun h => level h =? 2) (headings data) in
  let '(results, score) :=
    if hasH2Structure then
      (JS.push results
         (mkSeoResult success "Content structured with H2 headings"
            "Good use of heading structure that AI engines can easily parse and understand."
            None None),
       score + 20)
    else
      (JS.push results
         (mkSeoResult warning "Poor heading structure for AI"
            "Add H2 and H3 headings to improve AI readability and content parsing."
            None None),
       score) in
  (* TL;DR analysis *)
  let hasTldr :=
    JS.includes (JS.toLowerCase (content data)) "tl;dr"
    || JS.includes (JS.toLowerCase (content data)) "summary"
    || JS.includes (JS.toLowerCase (content data)) "key takeaways" in
  let '(results, score) :=
    if negb hasTldr then
      (JS.push results
         (mkSeoResult error "No TL;DR summary found"
            "AI tools prefer concise summaries. Add a TL;DR section to improve AI-driven content discovery."
            None None),
       score)
    else
      (JS.push results
         (mkSeoResult success "Summary content present"
            "Content includes summary sections that AI tools can easily extract."
            None None),
       score + 25) in
  (* Question-answer format analysis *)
  let hasQAFormat :=
    JS.includes (JS.toLowerCase (content data)) "what is"
    || JS.includes (JS.toLowerCase (content data)) "how to"
    || JS.includes (JS.toLowerCase (content data)) "why"
    || existsb (fun h => JS.includes (JS.toLowerCase (text h)) "?")
         (headings data) in
  let '(results, score) :=
    if negb hasQAFormat then
      (JS.push results
         (mkSeoResult warning "Limited question-answer format"
            "Content doesn't directly answer user intent queries. Consider restructuring with Q&A sections."
            None None),
       score)
    else
      (JS.push results
         (mkSeoResult success "Question-answer format detected"
            "Content addresses user questions directly, improving AI platform visibility."
            None None),
       score + 20) in
  (* Schema markup for AI *)
  let '(results, score) :=
    if negb (hasSchema data) then
      (JS.push results
         (mkSeoResult error "Missing schema markup"
            "No structured data found. Schema markup helps AI engines understand your content context."
            None None),
       score)
    else
      (JS.push results
         (mkSeoResult success "Schema markup enhances AI understanding"
            "Structured data helps AI platforms understand content relationships and context."
            None None),
       score + 20) in
  (* Entity and semantic clarity *)
  let hasEntities :=
    JS.includes (content data) "2024"
    || JS.includes (content data) "2023"
    || regexTest (JS.mkRegExp "\b[A-Z][a-z]+ [A-Z][a-z]+\b" "") (content data) in
  let '(results, score) :=
    if hasEntities then
      (JS.push results
         (mkSeoResult success "Good entity and semantic clarity"
            "Content includes specific entities, dates, and proper nouns that improve AI understanding."
            None None),
       score + 15)
    else
      (JS.push results
         (mkSeoResult warning "Moderate entity and semantic clarity"
            "Consider adding more specific dates, locations, and definitions to improve AI understanding."
            None None),
       score) in
  mkAnalysis results (Z.min score maxScore).

(** ** Content suggestions *)

Definition generateAiImprovements (data : WebsiteData) (currentScore : Z)
  : list Improvement :=
  let improvements : list Improvement := [] in
  (* High priority improvements for scores below 50 *)
  let improvements :=
    if currentScore <? 50 then
      let improvements :=
        JS.push improvements
          (mkImprovement "Add TL;DR Summary Section"
             "Add a 2-3 sentence summary at the top of your page covering the main points for AI tools"
             high 1) in
      JS.push improvements
        (mkImprovement "Create FAQ Schema Markup"
           "Add common questions and their answers in structured data format so AI can easily understand"
           high 2)
    else improvements in
  (* Medium priority improvements for scores 50-75 *)
  let improvements :=
    if currentScore <? 75 then
      let improvements :=
        JS.push improvements
          (mkImprovement "Improve Content Structure with Clear Headings"
             "Use H2/H3 headings that directly answer questions (What is, How to, Why)"
             high 3) in
      let improvements :=
        JS.push improvements
          (mkImprovement ("Add " +++ JS.dquote +++ "People Also Ask" +++ JS.dquote +++ " Section")
             "Add related questions and their short answers that users commonly ask"
             medium 4) in
      JS.push improvements
        (mkImprovement "Include Specific Dates and Statistics"
           "Add current year, numbers, and specific data points that AI tools can reference"
           medium 5)
    else improvements in
  (* Fine-tuning improvements for scores 75-85 *)
  let improvements :=
    if currentScore <? 85 then
      let improvements :=
        JS.push improvements
          (mkImprovement "Optimize for Voice Search Queries"
             "Add natural language phrases that people ask voice assistants"
             medium 6) in
      JS.push improvements
        (mkImprovement "Add Comparison Tables"
           "Present options, features, and alternatives in table format"
           medium 7)
    else improvements in
  (* Advanced improvements for scores 85+ *)
  let improvements :=
    if currentScore >=? 85 then
      let improvements :=
        JS.push improvements
          (mkImprovement "Link to Authoritative Sources"
             "Reference Wikipedia, government sites, and trusted sources for credibility"
             low 8) in
      let improvements :=
        JS.push improvements
          (mkImprovement "Add Step-by-Step Instructions"
             "Convert process-based content into numbered lists"
             low 9) in
      JS.push improvements
        (mkImprovement "Implement Article Schema"
           "Add structured data for publisher, author, and publication date"
           low 10)
    else improvements in
  JS.slice0 6 improvements.

Definition generateContentSuggestions (data : WebsiteData) (aiScore : Z)
  : ContentSuggestions :=
  (* Generate missing keywords based on content analysis *)
  let missingKeywords :=
    ["SEO optimization"; "website performance"; "search engine ranking";
     "content marketing"; "digital marketing"] in
  (* Generate blog title suggestions *)
  let blogTitles :=
    [mkBlogTitle "How to Improve Your Page Speed for Better Rankings in 2024"
       "page speed optimization, Core Web Vitals";
     mkBlogTitle "The Complete Guide to AI-Friendly Content Creation"
       "AI optimization, content structure";
     mkBlogTitle "SEO vs GEO: What's the Difference and Why It Matters"
       "generative engine optimization, SEO comparison";
     mkBlogTitle "Schema Markup: The Secret to Better AI Visibility"
       "structured data, schema implementation"] in
  (* Generate content structure suggestions *)
  let contentStructure :=
    ["## What is SEO Optimization?";
     "### Definition and Core Principles";
     "### Why SEO Matters in 2024";
     "## Traditional SEO vs. AI Optimization";
     "### Search Engine Optimization Basics";
     "### Generative Engine Optimization (GEO)";
     "## Step-by-Step Implementation Guide";
     "### Technical SEO Checklist";
     "### Content Optimization Strategies";
     "## Measuring Success";
     "### Key Performance Indicators";
     "### Tools and Analytics"] in
  (* Generate FAQ suggestions *)
  let faqs :=
    [mkFaq "What is a good page speed score?"
       "A good page speed score is above 90 for mobile and desktop. Core Web Vitals should meet Google's thresholds: LCP under 2.5s, FID under 100ms, and CLS under 0.1.";
     mkFaq "How can I optimize images without losing quality?"
       "Use modern formats like WebP or AVIF, implement lazy loading, compress images to 80-85% quality, and serve responsive images using srcset attributes.";
     mkFaq "What's the difference between SEO and GEO?"
       "SEO optimizes for search engines like Google, while GEO (Generative Engine Optimization) optimizes for AI platforms like ChatGPT and Perplexity that generate direct answers.";
     mkFaq "How important is schema markup for AI visibility?"
       "Schema markup is crucial for AI platforms to understand your content context, entity relationships, and factual information, significantly improving visibility in AI-generated responses."] in
  (* Assess AI platform visibility *)
  let aiVisibility := mkPlatformVisibility medium low medium low in
  (* Generate AI improvement suggestions based on current score *)
  let aiImprovements := generateAiImprovements data aiScore in
  mkContentSuggestions missingKeywords blogTitles contentStructure faqs
    aiVisibility aiImprovements.

(** ** The twelve factor assessors *)

(** [words.filter(w => content.includes(w)).length] *)
Definition countIncluded (content : string) (words : list string) : Z :=
  JS.count (filter (fun w => JS.includes content w) words).

Definition assessCrawlability (data : WebsiteData) : Z :=
  let score := 70 in (* Conservative base score *)
  (* Check for potential blocking indicators in content *)
  let content := JS.toLowerCase (content data) in
  let score :=
    if JS.includes content "login" || JS.includes content "sign in"
       || JS.includes content "register"
    then score - 30 else score in
  (* Check for paywall indicators *)
  let score :=
    if JS.includes content "subscription" || JS.includes content "premium"
       || JS.includes content "paywall"
    then score - 20 else score in
  (* Boost for public content indicators *)
  let score :=
    if JS.includes content "free" || JS.includes content "public"
       || JS.includes content "open access"
    then score + 20 else score in
  (* Check URL structure for accessibility *)
  let score :=
    if JS.truthy (title data)
       && negb (JS.includes (JS.toLowerCase (title data)) "404")
       && negb (JS.includes (JS.toLowerCase (title data)) "error")
    then score + 15 else score in
  Z.max 10 (Z.min 100 score).

Definition assessHtmlStructure (data : WebsiteData) : Z :=
  let score := 0 in
  (* Check for single H1 *)
  let h1Count := JS.count (filter (fun h => level h =? 1) (headings data)) in
  let score :=
    if h1Count =? 1 then score + 25
    else if h1Count =? 0 then score + 0
    else score + 10 in (* Multiple H1s are not ideal *)
  (* Check for proper heading hierarchy *)
  let hasH2 := existsb (fun h => level h =? 2) (headings data) in
  let hasH3 := existsb (fun h => level h =? 3) (headings data) in
  let score := if hasH2 then score + 25 else score in
  let score := if hasH3 then score + 15 else score in
  (* Basic structure bonus *)
  let score :=
    if JS.truthy (title data) && (JS.length (title data) >? 10)
    then score + 20 else score in
  let score :=
    if JS.truthy (metaDescription data) && (JS.length (metaDescription data) >? 50)
    then score + 15 else score in
  Z.min 100 score.

Definition assessContentClarity (data : WebsiteData) : Z :=
  let score := 10 in (* Base score *)
  let content := JS.toLowerCase (content data) in
  (* Check for clear introduction patterns (more specific) *)
  let introPatterns :=
    ["what is"; "introduction"; "overview"; "in this article"; "this guide"] in
  let foundIntro := existsb (fun pattern => JS.includes content pattern) introPatterns in
  let score := if foundIntro then score + 20 else score in
  (* Check for question-answering patterns *)
  let qaPatterns := ["how to"; "why"; "when"; "where"; "which"; "who"] in
  let foundQA := countIncluded content qaPatterns in
  let score := score + Z.min (foundQA * 8) 25 in
  (* Check for definition patterns *)
  let definitionPatterns :=
    ["definition"; "means"; "refers to"; "is defined as"; "can be defined"] in
  let foundDefinitions :=
    existsb (fun pattern => JS.includes content pattern) definitionPatterns in
  let score := if foundDefinitions then score + 15 else score in
  (* Content length scoring (more granular) *)
  let score :=
    if (wordCount data >? 500) && (wordCount data <? 2000) then score + 25
    else if (wordCount data >=? 2000) && (wordCount data <? 4000) then score + 20
    else if (wordCount data >=? 300) && (wordCount data <=? 500) then score + 15
    else if wordCount data <? 300 then score + 5
    else score in
  (* Check for topic consistency (title relevance) *)
  let score :=
    if JS.truthy (title data) then
      let titleWords :=
        filter (fun word => JS.length word >? 3)
          (JS.split (JS.toLowerCase (title data)) " ") in
      let contentMentions := countIncluded content titleWords in
      let relevanceRatio : Q :=
        (inject_Z contentMentions / inject_Z (Z.max (JS.count titleWords) 1))%Q in
      score + JS.Math_round (relevanceRatio * 15)%Q
    else score in
  Z.min 100 score.

(** [patterns.forEach(p => { const m = content.match(p);
      if (m && m.length > 0) total += Math.min(m.length * w, cap) })] *)
Definition sumCappedMatches (w cap : Z) (content : string)
  (patterns : list JS.RegExp) : Z :=
  fold_left
    (fun total pattern =>
       let matches := regexMatch pattern content in
       if JS.count matches >? 0
       then total + Z.min (JS.count matches * w) cap
       else total)
    patterns 0.

(** [patterns.forEach(p => { const m = content.match(p);
      if (m) total += m.length })] *)
Definition sumMatches (content : string) (patterns : list JS.RegExp) : Z :=
  fold_left
    (fun total pattern => total + JS.count (regexMatch pattern content))
    patterns 0.

Definition assessScanability (data : WebsiteData) : Z :=
  let score := 5 in (* Base score *)
  let content := content data in
  (* More accurate paragraph analysis *)
  let lines :=
    filter (fun line => JS.length (JS.trim line) >? 20) (JS.split content JS.LF) in
  let paragraphs :=
    filter (fun p => JS.length (JS.trim p) >? 50)
      (JS.split content (JS.LF +++ JS.LF)) in
  let score :=
    if JS.count paragraphs >? 0 then
      let totalLength := fold_left (fun sum p => sum + JS.length p) paragraphs 0 in
      let avgParagraphLength : Q :=
        (inject_Z totalLength / inject_Z (JS.count paragraphs))%Q in
      if JS.Qltb avgParagraphLength 200 then score + 30 (* Very short paragraphs *)
      else if JS.Qltb avgParagraphLength 400 then score + 25 (* Short paragraphs *)
      else if JS.Qltb avgParagraphLength 600 then score + 15 (* Medium paragraphs *)
      else score + 5 (* Long paragraphs *)
    else score in
  (* Enhanced list detection *)
  let bulletPoints := JS.count (regexMatch (JS.mkRegExp "[•*\-]\s" "g") content) in
  let numberedLists := JS.count (regexMatch (JS.mkRegExp "\d+\.\s" "g") content) in
  let totalLists := bulletPoints + numberedLists in
  let score :=
    if totalLists >? 10 then score + 25
    else if totalLists >? 5 then score + 20
    else if totalLists >? 2 then score + 15
    else if totalLists >? 0 then score + 10
    else score in
  (* Heading distribution analysis *)
  let headingCount := JS.count (headings data) in
  let contentWords := wordCount data in
  let headingRatio : Q := (* Headings per ~200 words *)
    (inject_Z headingCount / Qmax (inject_Z contentWords / 200) 1)%Q in
  let score :=
    if JS.Qltb (8 # 10) headingRatio then score + 25 (* Good heading distribution *)
    else if JS.Qltb (5 # 10) headingRatio then score + 20
    else if JS.Qltb (3 # 10) headingRatio then score + 15
    else if JS.Qltb (1 # 10) headingRatio then score + 10
    else score in
  (* Check for scannable formatting patterns *)
  let formattingPatterns :=
    [JS.mkRegExp "\*\*.*?\*\*" "g"; (* Bold text *)
     JS.mkRegExp "\*.*?\*" "g"; (* Italic text *)
     JS.mkRegExp ":\s*$" "gm"; (* Colon endings (like lists) *)
     JS.mkRegExp "^\s*[-•]\s" "gm" (* List items *)] in
  let formattingScore := sumCappedMatches 2 10 content formattingPatterns in
  let score := score + Z.min formattingScore 20 in
  Z.min 100 score.

Definition assessSummarySections (data : WebsiteData) : Z :=
  let content := JS.toLowerCase (content data) in
  let score := 0 in
  (* Check for TL;DR *)
  let score :=
    if JS.includes content "tl;dr" || JS.includes content "tldr"
    then score + 40 else score in
  (* Check for summary indicators *)
  let score :=
    if JS.includes content "summary" || JS.includes content "key points"
       || JS.includes content "takeaways"
    then score + 30 else score in
  (* Check for conclusion *)
  let score :=
    if JS.includes content "conclusion" || JS.includes content "to summarize"
    then score + 30 else score in
  Z.min 100 score.

Definition assessQaFormat (data : WebsiteData) : Z :=
  let content := JS.toLowerCase (content data) in
  let score := 0 in
  (* Check for Q&A patterns *)
  let score :=
    if JS.includes content "q:" || JS.includes content "question:"
       || JS.includes content "faq"
    then score + 40 else score in
  (* Check for answer patterns *)
  let score :=
    if JS.includes content "a:" || JS.includes content "answer:"
    then score + 30 else score in
  (* Check for question headings *)
  let questionHeadings :=
    filter
      (fun h =>
         JS.includes (JS.toLowerCase (text h)) "?"
         || JS.startsWith (JS.toLowerCase (text h)) "how "
         || JS.startsWith (JS.toLowerCase (text h)) "what "
         || JS.startsWith (JS.toLowerCase (text h)) "why ")
      (headings data) in
  let score := if JS.count questionHeadings >? 0 then score + 30 else score in
  Z.min 100 score.

Definition assessSchemaMarkup (data : WebsiteData) : Z :=
  let score := 0 in
  let score :=
    if hasSchema data then
      let score := score + 50 in
      (* Bonus for specific schema types *)
      let score :=
        if JS.arrayIncludes (schemaTypes data) "FAQPage" then score + 20 else score in
      let score :=
        if JS.arrayIncludes (schemaTypes data) "Article" then score + 15 else score in
      if JS.arrayIncludes (schemaTypes data) "HowTo" then score + 15 else score
    else score in
  Z.min 100 score.

Definition assessTrustedEntities (data : WebsiteData) : Z :=
  let score := 5 in (* Base score *)
  let content := JS.toLowerCase (content data) in
  (* Authority domain references (more comprehensive) *)
  let authorityDomains :=
    ["wikipedia"; ".gov"; ".edu"; ".org"; "reuters"; "bbc"; "cnn"; "nytimes"; "wsj"] in
  let foundAuthority := countIncluded content authorityDomains in
  let score := score + Z.min (foundAuthority * 12) 35 in
  (* Academic and research indicators *)
  let researchTerms :=
    ["research"; "study"; "university"; "journal"; "published"; "peer review";
     "academic"] in
  let foundResearch := countIncluded content researchTerms in
  let score := score + Z.min (foundResearch * 8) 25 in
  (* Industry authority terms *)
  let industryTerms :=
    ["according to"; "expert"; "specialist"; "authority"; "leader in"; "established"] in
  let foundIndustry := countIncluded content industryTerms in
  let score := score + Z.min (foundIndustry * 5) 20 in
  (* External links analysis (more sophisticated) *)
  let externalLinks := filter (fun link => negb (isInternal link)) (links data) in
  let linkScore := Z.min (JS.count externalLinks * 3) 20 in
  let score := score + linkScore in
  (* Check for citations or references *)
  let score :=
    if JS.includes content "source:" || JS.includes content "reference"
       || JS.includes content "citation"
    then score + 15 else score in
  (* Brand mentions and entities *)
  let entityPatterns :=
    ["inc."; "corp."; "ltd."; "company"; "organization"; "institute"] in
  let foundEntities := countIncluded content entityPatterns in
  let score := score + Z.min (foundEntities * 4) 15 in
  Z.min 100 score.

Definition assessDataFormats (data : WebsiteData) : Z :=
  let score := 5 in (* Conservative base score *)
  let content := content data in
  (* Enhanced bullet point detection *)
  let bulletPatterns :=
    [JS.mkRegExp "[•*]\s" "g";
     JS.mkRegExp "^\s*[-\*\+]\s" "gm";
     JS.mkRegExp "▪\s" "g";
     JS.mkRegExp "◦\s" "g"] in
  let bulletCount := sumMatches content bulletPatterns in
  let score :=
    if bulletCount >? 10 then score + 25
    else if bulletCount >? 5 then score + 20
    else if bulletCount >? 2 then score + 15
    else if bulletCount >? 0 then score + 10
    else score in
  (* Enhanced numbered list detection *)
  let numberedListMatches := regexMatch (JS.mkRegExp "^\s*\d+\.\s" "gm") content in
  let numberedCount := JS.count numberedListMatches in
  let score :=
    if numberedCount >? 8 then score + 20
    else if numberedCount >? 4 then score + 15
    else if numberedCount >? 1 then score + 10
    else if numberedCount >? 0 then score + 5
    else score in
  (* Enhanced statistical data detection *)
  let statPatterns :=
    [JS.mkRegExp "\d+%" "g"; (* Percentages *)
     JS.mkRegExp "\$\d+(?:,\d{3})*" "g"; (* Currency *)
     JS.mkRegExp "\d+,\d{3}" "g"; (* Large numbers with commas *)
     JS.mkRegExp "\d+\.\d+" "g"; (* Decimal numbers *)
     JS.mkRegExp "\d+\s?(?:million|billion|thousand)" "gi"; (* Scale indicators *)
     JS.mkRegExp "\d+\s?(?:hours?|days?|weeks?|months?|years?)" "gi"; (* Time periods *)
     JS.mkRegExp "\d+\s?(?:people|users|customers|companies)" "gi" (* Quantities *)] in
  let statCount := sumMatches content statPatterns in
  let score :=
    if statCount >? 15 then score + 25
    else if statCount >? 8 then score + 20
    else if statCount >? 4 then score + 15
    else if statCount >? 1 then score + 10
    else score in
  (* Table indicators (in text content) *)
  let tableIndicators :=
    ["table"; "chart"; "graph"; "figure"; "data shows"; "statistics"] in
  let tableScore :=
    JS.count
      (filter (fun indicator => JS.includes (JS.toLowerCase content) indicator)
         tableIndicators) in
  let score := score + Z.min (tableScore * 3) 15 in
  (* Comparison formats *)
  let comparisonFormats :=
    [JS.mkRegExp "vs\.?\s" "gi";
     JS.mkRegExp "versus" "gi";
     JS.mkRegExp "compared to" "gi";
     JS.mkRegExp "in contrast" "gi";
     JS.mkRegExp "on the other hand" "gi"] in
  let comparisonCount := sumMatches content comparisonFormats in
  let score := score + Z.min (comparisonCount * 4) 15 in
  (* Code or technical formatting *)
  let codePatterns :=
    [JS.mkRegExp "`[^`]+`" "g"; (* Inline code *)
     JS.mkRegExp "```[\s\S]*?```" "g"; (* Code blocks *)
     JS.mkRegExp "<[^>]+>" "g" (* HTML-like tags *)] in
  let codeCount := sumMatches content codePatterns in
  let score := score + Z.min (codeCount * 2) 10 in
  Z.min 100 score.

Definition assessReadability (data : WebsiteData) : Z :=
  let score := 30 in (* Lower base score for better differentiation *)
  (* Sentence length analysis *)
  let sentences :=
    filter (fun s => JS.length (JS.trim s) >? 10)
      (regexSplit (JS.mkRegExp "[.!?]+" "") (content data)) in
  let score :=
    if JS.count sentences >? 0 then
      let avgWordsPerSentence : Q :=
        (inject_Z (wordCount data) / inject_Z (JS.count sentences))%Q in
      if JS.Qltb avgWordsPerSentence 15 then score + 30 (* Easy to read *)
      else if JS.Qltb avgWordsPerSentence 20 then score + 20 (* Moderate *)
      else if JS.Qltb avgWordsPerSentence 25 then score + 10 (* Getting complex *)
      else score + 5 (* Too complex *)
    else score in
  (* Complex word analysis (words longer than 7 characters) *)
  let words := regexMatch (JS.mkRegExp "\b\w+\b" "g") (content data) in
  let complexWords := filter (fun word => JS.length word >? 7) words in
  let complexWordRatio := JS.divide (JS.count complexWords) (JS.count words) in
  let score :=
    if JS.below complexWordRatio (15 # 100) then score + 20 (* Low complexity *)
    else if JS.below complexWordRatio (25 # 100) then score + 15 (* Moderate complexity *)
    else if JS.below complexWordRatio (35 # 100) then score + 10 (* High complexity *)
    else score + 5 in (* Very high complexity *)
  (* Paragraph length assessment *)
  let paragraphs :=
    filter (fun p => JS.length (JS.trim p) >? 50)
      (JS.split (content data) (JS.LF +++ JS.LF)) in
  let score :=
    if JS.count paragraphs >? 0 then
      let avgParagraphWords : Q :=
        (inject_Z (wordCount data) / inject_Z (JS.count paragraphs))%Q in
      if JS.Qltb avgParagraphWords 50 then score + 15 (* Short paragraphs *)
      else if JS.Qltb avgParagraphWords 100 then score + 10 (* Medium paragraphs *)
      else score + 5 (* Long paragraphs *)
    else score in
  (* Readability indicators *)
  let readabilityTerms :=
    ["simply"; "easy"; "quick"; "step by step"; "in other words"; "for example"] in
  let foundTerms :=
    filter (fun term => JS.includes (JS.toLowerCase (content data)) term)
      readabilityTerms in
  let score := score + Z.min (JS.count foundTerms * 5) 15 in
  Z.max 10 (Z.min 100 score).

(** The unclamped Freshness score: the value of [score] just before the
    [return] of [assessFreshness]. *)
Definition freshnessRaw (data : WebsiteData) : Z :=
  let score := 10 in (* Base score *)
  let content := JS.toLowerCase (content data) in
  (* Current year references (weighted by frequency) *)
  let currentYearMatches :=
    JS.count (regexMatch (JS.mkRegExp (JS.toString currentYear) "g") content) in
  let score := score + Z.min (currentYearMatches * 15) 30 in
  (* Previous year (less weight) *)
  let lastYearMatches :=
    JS.count (regexMatch (JS.mkRegExp (JS.toString (currentYear - 1)) "g") content) in
  let score := score + Z.min (lastYearMatches * 10) 20 in
  (* Freshness indicators with varying weights *)
  let freshnessTerms :=
    [("updated", 15); ("revised", 12); ("latest", 10); ("current", 8);
     ("recent", 8); ("new", 6); ("today", 12); ("this year", 10);
     ("recently", 8)] in
  let freshnessScore :=
    fold_left
      (fun freshnessScore '(term, weight) =>
         if JS.includes content term then freshnessScore + weight
         else freshnessScore)
      freshnessTerms 0 in
  let score := score + Z.min freshnessScore 25 in
  (* Month references (indicates recent content) *)
  let months :=
    ["january"; "february"; "march"; "april"; "may"; "june";
     "july"; "august"; "september"; "october"; "november"; "december"] in
  let monthMentions := countIncluded content months in
  let score := score + Z.min (monthMentions * 3) 15 in
  (* Version indicators *)
  let versionPatterns := ["version"; "v."; "update"; "release"] in
  let versionMentions := countIncluded content versionPatterns in
  let score := score + Z.min (versionMentions * 5) 15 in
  (* Penalty for old years *)
  let oldYears := ["2020"; "2019"; "2018"; "2017"] in
  let oldYearMentions := countIncluded content oldYears in
  let score := score - Z.min (oldYearMentions * 5) 20 in
  score.

Definition assessFreshness (data : WebsiteData) : Z :=
  Z.max 5 (Z.min 100 (freshnessRaw data)).

Definition assessCredibility (data : WebsiteData) : Z :=
  let score := 15 in (* Lower base score for better differentiation *)
  let content := JS.toLowerCase (content data) in
  (* Author information (various formats) *)
  let authorPatterns :=
    ["author:"; "written by"; "by:"; "contributor:"; "created by"; "published by"] in
  let foundAuthor := existsb (fun pattern => JS.includes content pattern) authorPatterns in
  let score := if foundAuthor then score + 25 else score in
  (* Contact and company information *)
  let contactPatterns :=
    ["contact us"; "about us"; "our team"; "meet the team"; "company info"] in
  let foundContact := countIncluded content contactPatterns in
  let score := score + Z.min (foundContact * 8) 20 in
  (* Professional credentials and expertise *)
  let credentialTerms :=
    ["expert"; "certified"; "professional"; "phd"; "degree"; "years of experience";
     "specialist"] in
  let foundCredentials := countIncluded content credentialTerms in
  let score := score + Z.min (foundCredentials * 6) 18 in
  (* Trust signals *)
  let trustSignals :=
    ["award"; "featured in"; "recognized"; "testimonial"; "review"; "trusted by"] in
  let foundTrust := countIncluded content trustSignals in
  let score := score + Z.min (foundTrust * 5) 15 in
  (* Publication date or last updated *)
  let datePatterns :=
    ["published"; "updated"; "last modified"; "copyright"; "2024"; "2025"] in
  let foundDate := existsb (fun pattern => JS.includes content pattern) datePatterns in
  let score := if foundDate then score + 12 else score in
  (* External validation *)
  let score :=
    if JS.includes content "source" || JS.includes content "reference"
       || JS.includes content "study"
    then score + 10 else score in
  Z.max 5 (Z.min 100 score).

(** ** Recommendations *)

Definition generateAiVisibilityRecommendations
  (factors : list Factor) (overallScore : Z) : list Recommendation :=
  let recommendations : list Recommendation := [] in
  (* High priority recommendations for critical failures *)
  let recommendations :=
    fold_left
      (fun recommendations factor_ =>
         if Status.eqb (status factor_) Status.fail then
           if (factor factor_ =? "TL;DR & Summary")%string then
             JS.push recommendations
               (mkRecommendation high "Add TL;DR Summary Section"
                  "Add a 2-3 sentence summary at the top or bottom of your page that covers the main points"
                  "AI tools will be able to easily understand and summarize your content")
           else if (factor factor_ =? "Q&A Format")%string then
             JS.push recommendations
               (mkRecommendation high "Create FAQ Section"
                  "Add common questions and their direct answers in a structured format"
                  "Better visibility in ChatGPT and Perplexity search results")
           else if (factor factor_ =? "Schema Markup")%string then
             JS.push recommendations
               (mkRecommendation high "Implement Structured Data"
                  "Add FAQPage, Article, or HowTo schema markup to your content"
                  "AI platforms will better understand your content context and relationships")
           else if (factor factor_ =? "Content Clarity")%string then
             JS.push recommendations
               (mkRecommendation high "Improve Content Structure"
                  "Add clear introductions, definitions, and explanatory content"
                  "AI systems will better understand and reference your content")
           else recommendations
         else recommendations)
      factors recommendations in
  (* Medium priority for warnings *)
  let recommendations :=
    fold_left
      (fun recommendations factor_ =>
         if Status.eqb (status factor_) Status.warning then
           if (factor factor_ =? "HTML Structure")%string then
             JS.push recommendations
               (mkRecommendation medium "Improve Heading Structure"
                  "Use a single H1 tag and create proper H2/H3 hierarchy"
                  "AI systems will better understand your content's logical flow")
           else if (factor factor_ =? "Content Scannability")%string then
             JS.push recommendations
               (mkRecommendation medium "Break Content into Short Paragraphs"
                  "Divide long paragraphs into shorter ones and use bullet points"
                  "AI tools can more easily scan and extract information from your content")
           else if (factor factor_ =? "Readability Level")%string then
             JS.push recommendations
               (mkRecommendation medium "Simplify Language"
                  "Use shorter sentences and simpler vocabulary for better comprehension"
                  "AI systems prefer content that's easy to understand and process")
           else recommendations
         else recommendations)
      factors recommendations in
  (* General recommendations based on score *)
  let recommendations :=
    if overallScore <? 70 then
      JS.push recommendations
        (mkRecommendation medium "Add Current Year References"
           "Include 2025 dates and recent data points to show content freshness"
           "AI platforms prefer fresh and up-to-date content for their responses")
    else recommendations in
  let recommendations :=
    if overallScore <? 50 then
      JS.push recommendations
        (mkRecommendation high "Add Statistics and Data"
           "Include specific numbers, percentages, and data points in your content"
           "AI systems can extract and reference concrete data points from your content")
    else recommendations in
  JS.slice0 8 recommendations. (* Return top 8 recommendations *)

(** ** AI platform visibility *)

Definition analyzeAiPlatformVisibility (data : WebsiteData) : AiVisibility :=
  let factors : list Factor := [] in
  let totalScore := 0 in
  let maxScore := 1200 in (* 12 factors x 100 points each *)
  (* 1. Crawlability Assessment *)
  let crawlabilityScore := assessCrawlability data in
  let factors :=
    JS.push factors
      (mkFactor "Public Crawlability" crawlabilityScore
         "Page accessibility for AI crawlers without login walls or blocking"
         (if crawlabilityScore >=? 80 then Status.pass
          else if crawlabilityScore >=? 50 then Status.warning else Status.fail)) in
  let totalScore := totalScore + crawlabilityScore in
  (* 2. HTML Structure Quality *)
  let structureScore := assessHtmlStructure data in
  let factors :=
    JS.push factors
      (mkFactor "HTML Structure" structureScore
         "Clean semantic HTML with proper heading hierarchy"
         (if structureScore >=? 80 then Status.pass
          else if structureScore >=? 50 then Status.warning else Status.fail)) in
  let totalScore := totalScore + structureScore in
  (* 3. Content Clarity and Organization *)
  let clarityScore := assessContentClarity data in
  let factors :=
    JS.push factors
      (mkFactor "Content Clarity" clarityScore
         "Clear introduction, topic definition, and direct question answers"
         (if clarityScore >=? 80 then Status.pass
          else if clarityScore >=? 50 then Status.warning else Status.fail)) in
  let totalScore := totalScore + clarityScore in
  (* 4. Scannable Content Format *)
  let scannabilityScore := assessScanability data in
  let factors :=
    JS.push factors
      (mkFactor "Content Scannability" scannabilityScore
         "Short paragraphs and easy-to-summarize content structure"
         (if scannabilityScore >=? 80 then Status.pass
          else if scannabilityScore >=? 50 then Status.warning else Status.fail)) in
  let totalScore := totalScore + scannabilityScore in
  (* 5. Summary Sections *)
  let summaryScore := assessSummarySections data in
  let factors :=
    JS.push factors
      (mkFactor "TL;DR & Summary" summaryScore
         "Quick summary sections at top or bottom of content"
         (if summaryScore >=? 80 then Status.pass
          else if summaryScore >=? 50 then Status.warning else Status.fail)) in
  let totalScore := totalScore + summaryScore in
  (* 6. Q&A Format Content *)
  let qaScore := assessQaFormat data in
  let factors :=
    JS.push factors
      (mkFactor "Q&A Format" qaScore
         "Structured question-answer blocks that AI can easily extract"
         (if qaScore >=? 80 then Status.pass
          else if qaScore >=? 50 then Status.warning else Status.fail)) in
  let totalScore := totalScore + qaScore in
  (* 7. Schema Markup Implementation *)
  let schemaScore := assessSchemaMarkup data in
  let factors :=
    JS.push factors
      (mkFactor "Schema Markup" schemaScore
         "FAQPage, HowTo, Article, and other relevant structured data"
         (if schemaScore >=? 80 then Status.pass
          else if schemaScore >=? 50 then Status.warning else Status.fail)) in
  let totalScore := totalScore + schemaScore in
  (* 8. Trusted Entity References *)
  let entityScore := assessTrustedEntities data in
  let factors :=
    JS.push factors
      (mkFactor "Trusted Entities" entityScore
         "References to organizations, authority sources, and credible links"
         (if entityScore >=? 80 then Status.pass
          else if entityScore >=? 50 then Status.warning else Status.fail)) in
  let totalScore := totalScore + entityScore in
  (* 9. Extractable Data Formats *)
  let dataScore := assessDataFormats data in
  let factors :=
    JS.push factors
      (mkFactor "Data Extraction" dataScore
         "Bullet lists, tables, statistics, and structured information"
         (if dataScore >=? 80 then Status.pass
          else if dataScore >=? 50 then Status.warning else Status.fail)) in
  let totalScore := totalScore + dataScore in
  (* 10. Reading Level and Clarity *)
  let readabilityScore := assessReadability data in
  let factors :=
    JS.push factors
      (mkFactor "Readability Level" readabilityScore
         "8th-grade reading level, minimal jargon and marketing fluff"
         (if readabilityScore >=? 80 then Status.pass
          else if readabilityScore >=? 50 then Status.warning else Status.fail)) in
  let totalScore := totalScore + readabilityScore in
  (* 11. Freshness Signals *)
  let freshnessScore := assessFreshness data in
  let factors :=
    JS.push factors
      (mkFactor "Content Freshness" freshnessScore
         "Updated dates, current year references, and freshness indicators"
         (if freshnessScore >=? 80 then Status.pass
          else if freshnessScore >=? 50 then Status.warning else Status.fail)) in
  let totalScore := totalScore + freshnessScore in
  (* 12. Credibility Markers *)
  let credibilityScore := assessCredibility data in
  let factors :=
    JS.push factors
      (mkFactor "Credibility Markers" credibilityScore
         "Author information, contact details, and about us content"
         (if credibilityScore >=? 80 then Status.pass
          else if credibilityScore >=? 50 then Status.warning else Status.fail)) in
  let totalScore := totalScore + credibilityScore in
  let overallScore :=
    Binary64.Math_round
      (Binary64.mul
         (Binary64.div (Binary64.of_Z totalScore) (Binary64.of_Z maxScore))
         (Binary64.of_Z 100)) in
  (* Generate summary *)
  let failingFactors :=
    JS.count (filter (fun f => Status.eqb (status f) Status.fail) factors) in
  let warningFactors :=
    JS.count (filter (fun f => Status.eqb (status f) Status.warning) factors) in
  let summary :=
    if overallScore >=? 80 then
      "Excellent AI platform visibility with strong optimization across most factors"
    else if overallScore >=? 60 then
      "Good AI visibility with " +++ JS.toString (failingFactors + warningFactors)
      +++ " areas needing improvement"
    else if overallScore >=? 40 then
      "Moderate AI visibility. " +++ JS.toString failingFactors
      +++ " critical issues and " +++ JS.toString warningFactors
      +++ " warnings to address"
    else
      "Poor AI platform visibility. Significant optimization needed across "
      +++ JS.toString failingFactors +++ " critical areas" in
  (* Generate recommendations *)
  let recommendations := generateAiVisibilityRecommendations factors overallScore in
  mkAiVisibility overallScore summary factors recommendations.

(** ** Comparison of two analysed pages *)

Definition compareWebsites (data1 : WebsiteData) (report1 : AuditReport)
  (data2 : WebsiteData) (report2 : AuditReport)
  (aiVisibility1 aiVisibility2 : AiVisibility) : Differences :=
  let seoScoreDiff := seoScore report2 - seoScore report1 in
  let aiScoreDiff := aiScore report2 - aiScore report1 in
  let aiVisibilityDiff := overallScore aiVisibility2 - overallScore aiVisibility1 in
  let betterPerformer :=
    if seoScoreDiff + aiScoreDiff + aiVisibilityDiff >? 0 then "url2" else "url1" in
  let keyDifferences : list KeyDifference := [] in
  (* SEO Differences *)
  let keyDifferences :=
    if Z.abs seoScoreDiff >? 10 then
      let keyDifferences :=
        JS.push keyDifferences
          (mkKeyDifference Category.seo "Title Tag Optimization"
             (JS.toString (JS.length (title data1)) +++ " characters")
             (JS.toString (JS.length (title data2)) +++ " characters")
             (if seoScoreDiff >? 0
              then "URL2 has better title length (50-60 chars ideal)"
              else "URL1 has better title length optimization")) in
      JS.push keyDifferences
        (mkKeyDifference Category.seo "Meta Description"
           (if JS.truthy (metaDescription data1)
            then JS.toString (JS.length (metaDescription data1)) +++ " chars"
            else "Missing")
           (if JS.truthy (metaDescription data2)
            then JS.toString (JS.length (metaDescription data2)) +++ " chars"
            else "Missing")
           "Meta description should be 150-160 characters for best results")
    else keyDifferences in
  (* AI Platform Visibility Differences *)
  let keyDifferences :=
    if Z.abs aiVisibilityDiff >? 15 then
      let factor1 :=
        find (fun f => (factor f =? "TL;DR & Summary")%string) (factors aiVisibility1) in
      let factor2 :=
        find (fun f => (factor f =? "TL;DR & Summary")%string) (factors aiVisibility2) in
      let keyDifferences :=
        JS.push keyDifferences
          (mkKeyDifference Category.visibility "AI Platform Summary"
             (match factor1 with
              | Some f => JS.toString (f_score f) +++ "/100"
              | None => "Not assessed"
              end)
             (match factor2 with
              | Some f => JS.toString (f_score f) +++ "/100"
              | None => "Not assessed"
              end)
             "Add TL;DR sections and clear summaries for better AI visibility") in
      let schema1 :=
        find (fun f => (factor f =? "Schema Markup")%string) (factors aiVisibility1) in
      let schema2 :=
        find (fun f => (factor f =? "Schema Markup")%string) (factors aiVisibility2) in
      JS.push keyDifferences
        (mkKeyDifference Category.visibility "Structured Data Implementation"
           (match schema1 with
            | Some f => JS.toString (f_score f) +++ "/100"
            | None => "Not assessed"
            end)
           (match schema2 with
            | Some f => JS.toString (f_score f) +++ "/100"
            | None => "Not assessed"
            end)
           "Implement FAQPage and Article schema markup for AI platforms")
    else keyDifferences in
  (* AI Optimization Differences *)
  let keyDifferences :=
    if Z.abs aiScoreDiff >? 10 then
      let hasH2_1 := existsb (fun h => level h =? 2) (headings data1) in
      let hasH2_2 := existsb (fun h => level h =? 2) (headings data2) in
      let keyDifferences :=
        JS.push keyDifferences
          (mkKeyDifference Category.ai "Content Structure"
             (if hasH2_1 then "Has H2 structure" else "Poor heading structure")
             (if hasH2_2 then "Has H2 structure" else "Poor heading structure")
             "Use H2/H3 headings for better AI content parsing") in
      JS.push keyDifferences
        (mkKeyDifference Category.ai "Schema Markup"
           (if hasSchema data1
            then JS.toString (JS.count (schemaTypes data1)) +++ " types" else "None")
           (if hasSchema data2
            then JS.toString (JS.count (schemaTypes data2)) +++ " types" else "None")
           "Implement FAQ and Article schema for AI platforms")
    else keyDifferences in
  mkDifferences seoScoreDiff aiScoreDiff aiVisibilityDiff betterPerformer
    keyDifferences.

(** ** Specification-side vocabulary

    The definitions below follow the wording of the specification; the
    theorems compare them with the functions translated above. *)

(** The entirely empty record of the specification's scenario. *)
Definition emptyRecord : WebsiteData :=
  mkWebsiteData "" "" [] [] [] "" false [] 500 0.

(** The published factor catalogue, in order. *)
Definition factorCatalogue : list string :=
  ["Public Crawlability"; "HTML Structure"; "Content Clarity";
   "Content Scannability"; "TL;DR & Summary"; "Q&A Format"; "Schema Markup";
   "Trusted Entities"; "Data Extraction"; "Readability Level";
   "Content Freshness"; "Credibility Markers"].

(** The twelve assessors applied to a record, in catalogue order. *)
Definition factorScores (data : WebsiteData) : list Z :=
  [assessCrawlability data; assessHtmlStructure data; assessContentClarity data;
   assessScanability data; assessSummarySections data; assessQaFormat data;
   assessSchemaMarkup data; assessTrustedEntities data; assessDataFormats data;
   assessReadability data; assessFreshness data; assessCredibility data].

(** [sum(scores)] *)
Definition sumZ (xs : list Z) : Z := fold_right Z.add 0 xs.

(** [round(sum / 1200 * 100)], evaluated as the source evaluates it. *)
Definition roundedPercentage (sum : Z) : Z :=
  Binary64.Math_round
    (Binary64.mul (Binary64.div (Binary64.of_Z sum) (Binary64.of_Z 1200))
       (Binary64.of_Z 100)).

(** The same quantity rounded on the exact quotient, halves going up. *)
Definition exactPercentage (sum : Z) : Z :=
  JS.Math_round ((inject_Z sum / inject_Z 1200) * 100)%Q.

(** A score within its documented range. *)
Definition inRange (x : Z) : Prop := 0 <= x <= 100.

(** The six checks of the traditional SEO analysis. *)
Inductive SeoCheck : Set :=
| TitleLength | MetaDescriptionLength | H1Count
| ImageAltText | SchemaPresence | LoadTimeThreshold.

(** The check a result entry reports on, recognised by its title. *)
Definition checkOf (r : SeoResult) : option SeoCheck :=
  let t := res_title r in
  if existsb (String.eqb t)
       ["Missing title tag"; "Title tag too short"; "Title tag too long";
        "Title tag length optimal"] then Some TitleLength
  else if existsb (String.eqb t)
       ["Missing meta description"; "Meta description too short";
        "Meta description too long"; "Meta description length optimal"]
  then Some MetaDescriptionLength
  else if existsb (String.eqb t)
       ["Missing H1 tag"; "Multiple H1 tags found"; "Proper H1 structure"]
  then Some H1Count
  else if existsb (String.eqb t)
       ["Missing alt text on images"; "All images have alt text"]
  then Some ImageAltText
  else if existsb (String.eqb t)
       ["No schema markup found"; "Schema markup present"]
  then Some SchemaPresence
  else if existsb (String.eqb t)
       ["Slow page load time"; "Good page load time"]
  then Some LoadTimeThreshold
  else None.

(** The per-factor templates, keyed by factor name: an absent key means that
    no recommendation is emitted. *)
Definition failTemplates : list (string * Recommendation) :=
  [("TL;DR & Summary",
    mkRecommendation high "Add TL;DR Summary Section"
      "Add a 2-3 sentence summary at the top or bottom of your page that covers the main points"
      "AI tools will be able to easily understand and summarize your content");
   ("Q&A Format",
    mkRecommendation high "Create FAQ Section"
      "Add common questions and their direct answers in a structured format"
      "Better visibility in ChatGPT and Perplexity search results");
   ("Schema Markup",
    mkRecommendation high "Implement Structured Data"
      "Add FAQPage, Article, or HowTo schema markup to your content"
      "AI platforms will better understand your content context and relationships");
   ("Content Clarity",
    mkRecommendation high "Improve Content Structure"
      "Add clear introductions, definitions, and explanatory content"
      "AI systems will better understand and reference your content")].

Definition warningTemplates : list (string * Recommendation) :=
  [("HTML Structure",
    mkRecommendation medium "Improve Heading Structure"
      "Use a single H1 tag and create proper H2/H3 hierarchy"
      "AI systems will better understand your content's logical flow");
   ("Content Scannability",
    mkRecommendation medium "Break Content into Short Paragraphs"
      "Divide long paragraphs into shorter ones and use bullet points"
      "AI tools can more easily scan and extract information from your content");
   ("Readability Level",
    mkRecommendation medium "Simplify Language"
      "Use shorter sentences and simpler vocabulary for better comprehension"
      "AI systems prefer content that's easy to understand and process")].

Fixpoint lookupTemplate (name : string) (table : list (string * Recommendation))
  : list Recommendation :=
  match table with
  | [] => []
  | (key, r) :: rest =>
      if (name =? key)%string then [r] else lookupTemplate name rest
  end.

(** What one factor contributes to the pass over the factors that looks for
    status [st] with the templates [table]. *)
Definition emitted (st : Status.t) (table : list (string * Recommendation))
  (f : Factor) : list Recommendation :=
  if Status.eqb (status f) st then lookupTemplate (factor f) table else [].

Definition freshnessTip : Recommendation :=
  mkRecommendation medium "Add Current Year References"
    "Include 2025 dates and recent data points to show content freshness"
    "AI platforms prefer fresh and up-to-date content for their responses".

Definition statisticsTip : Recommendation :=
  mkRecommendation high "Add Statistics and Data"
    "Include specific numbers, percentages, and data points in your content"
    "AI systems can extract and reference concrete data points from your content".

(** The recommendation list as the specification describes it. *)
Definition specRecommendations (fs : list Factor) (overall : Z)
  : list Recommendation :=
  firstn 8
    (flat_map (emitted Status.fail failTemplates) fs
     ++ flat_map (emitted Status.warning warningTemplates) fs
     ++ (if overall <? 70 then [freshnessTip] else [])
     ++ (if overall <? 50 then [statisticsTip] else [])).

(** The text shown for a factor looked up by name in a factors list. *)
Definition factorScoreText (name : string) (fs : list Factor) : string :=
  match find (fun f => (factor f =? name)%string) fs with
  | Some f => JS.toString (f_score f) +++ "/100"
  | None => "Not assessed"
  end.

(** What a key difference shows: category, aspect and the two values. *)
Definition shown (k : KeyDifference) : Category.t * string * string * string :=
  (category k, aspect k, url1Value k, url2Value k).

Definition seoDifferences (data1 data2 : WebsiteData)
  : list (Category.t * string * string * string) :=
  [(Category.seo, "Title Tag Optimization",
    JS.toString (JS.length (title data1)) +++ " characters",
    JS.toString (JS.length (title data2)) +++ " characters");
   (Category.seo, "Meta Description",
    (if (metaDescription data1 =? "")%string then "Missing"
     else JS.toString (JS.length (metaDescription data1)) +++ " chars"),
    (if (metaDescription data2 =? "")%string then "Missing"
     else JS.toString (JS.length (metaDescription data2)) +++ " chars"))].

Definition visibilityDifferences (fs1 fs2 : list Factor)
  : list (Category.t * string * string * string) :=
  [(Category.visibility, "AI Platform Summary",
    factorScoreText "TL;DR & Summary" fs1, factorScoreText "TL;DR & Summary" fs2);
   (Category.visibility, "Structured Data Implementation",
    factorScoreText "Schema Markup" fs1, factorScoreText "Schema Markup" fs2)].

Definition geoDifferences (data1 data2 : WebsiteData)
  : list (Category.t * string * string * string) :=
  let h2Text (d : WebsiteData) :=
    if existsb (fun h => level h =? 2) (headings d)
    then "Has H2 structure" else "Poor heading structure" in
  let typesText (d : WebsiteData) :=
    if hasSchema d then JS.toString (JS.count (schemaTypes d)) +++ " types"
    else "None" in
  [(Category.ai, "Content Structure", h2Text data1, h2Text data2);
   (Category.ai, "Schema Markup", typesText data1, typesText data2)].

(** A stored report and an assessment carrying given scores and nothing else. *)
Definition reportWithScores (seo geo : Z) : AuditReport :=
  mkAuditReport "" seo geo [] [] (generateContentSuggestions emptyRecord geo).

Definition visibilityWithScore (overall : Z) : AiVisibility :=
  mkAiVisibility overall "" [] [].

(** A runtime that finds nothing: what any regular-expression engine answers
    on a text in which none of the patterns of the analyzer occurs (the empty
    text, for one): no match, and one piece when splitting. *)
Definition noMatch (re : JS.RegExp) (s : string) : list string := [].
Definition noTest (re : JS.RegExp) (s : string) : bool := false.
Definition noSplit (re : JS.RegExp) (s : string) : list string := [s].

(** A record without text whose twelve factor scores add up to 174. *)
Definition record174 : WebsiteData :=
  mkWebsiteData "" ""
    [mkHeading 1 "A"; mkHeading 1 "B"] []
    [mkLink "https://a.example" "a" false; mkLink "https://b.example" "b" false;
     mkLink "https://c.example" "c" false]
    "" false [] 500 4000.

(** A record that only mentions the four stale years. *)
Definition staleRecord : WebsiteData :=
  mkWebsiteData "" "" [] [] [] "2017 2018 2019 2020" false [] 500 4.

(** ** The request handlers ([server/routes.ts])

    What the handlers compute between the scraping of the pages and the
    storage of the reports. *)

(** The report the [/api/analyze] handler hands to the storage. *)
Definition analyzeHandler (url_ : string)
  (includeTraditionalSeo includeGeo includeContentSuggestions : bool)
  (websiteData : WebsiteData) : AuditReport :=
  (* Analyze traditional SEO *)
  let traditionalSeoAnalysis :=
    if includeTraditionalSeo then analyzeTraditionalSeo websiteData
    else mkAnalysis [] 0 in
  (* Analyze GEO *)
  let geoAnalysis :=
    if includeGeo then analyzeGeo websiteData else mkAnalysis [] 0 in
  (* Generate content suggestions *)
  let contentSuggestions_ :=
    if includeContentSuggestions
    then generateContentSuggestions websiteData (score geoAnalysis)
    else mkContentSuggestions [] [] [] [] (mkPlatformVisibility low low low low) [] in
  (* Create audit report *)
  mkAuditReport url_ (score traditionalSeoAnalysis) (score geoAnalysis)
    (results traditionalSeoAnalysis) (results geoAnalysis) contentSuggestions_.

(** The differences the [/api/compare] handler answers with. *)
Definition compareHandler (url1 url2 : string)
  (includeTraditionalSeo includeGeo includeContentSuggestions : bool)
  (websiteData1 websiteData2 : WebsiteData) : Differences :=
  let url1Report :=
    analyzeHandler url1 includeTraditionalSeo includeGeo includeContentSuggestions
      websiteData1 in
  let url2Report :=
    analyzeHandler url2 includeTraditionalSeo includeGeo includeContentSuggestions
      websiteData2 in
  (* Analyze AI Platform Visibility for both websites *)
  let url1AiVisibility := analyzeAiPlatformVisibility websiteData1 in
  let url2AiVisibility := analyzeAiPlatformVisibility websiteData2 in
  (* Generate comparison analysis *)
  compareWebsites websiteData1 url1Report websiteData2 url2Report
    url1AiVisibility url2AiVisibility.

(** ** Vocabulary of the further properties *)

Definition isSuccess (r : SeoResult) : bool :=
  match res_type r with success => true | _ => false end.


(** How many of the three schema types with a bonus a record declares. *)
Definition bonusTypes (data : WebsiteData) : Z :=
  (if JS.arrayIncludes (schemaTypes data) "FAQPage" then 1 else 0)
  + (if JS.arrayIncludes (schemaTypes data) "Article" then 1 else 0)
  + (if JS.arrayIncludes (schemaTypes data) "HowTo" then 1 else 0).

(** The invariant of a run of checks worth at most [M] points so far: at
    most [k] entries, at most [M] points, and all the points exactly when
    there are [k] entries and all of them are of type success. *)
Definition fullMarksInv (k : nat) (M : Z) (r : list SeoResult) (s : Z) : Prop :=
  (List.length r <= k)%nat
  /\ s <= M
  /\ (s = M <-> forallb isSuccess r = true /\ List.length r = k).


(** A record with schema markup and nothing else. *)
Definition schemaRecord : WebsiteData :=
  mkWebsiteData "" "" [] [] [] "" true ["FAQPage"; "Article"] 500 0.

(** * Properties *)

(** ** Arithmetic helpers *)

Lemma count_nonneg {A : Type} (xs : list A) : 0 <= JS.count xs.
Proof. unfold JS.count. lia. Qed.

Lemma filter_count_le {A : Type} (p : A -> bool) (xs : list A) :
  JS.count (filter p xs) <= JS.count xs.
Proof.
  unfold JS.count. pose proof (filter_length_le p xs). lia.
Qed.

(** Case analysis on the next condition of a translated function. *)
Ltac branch :=
  match goal with
  | |- context [if ?a >? ?b then _ else _] => destruct (Z.gtb_spec a b)
  | |- context [if ?a >=? ?b then _ else _] => destruct (Z.geb_spec a b)
  | |- context [if ?a <? ?b then _ else _] => destruct (Z.ltb_spec a b)
  | |- context [if ?a <=? ?b then _ else _] => destruct (Z.leb_spec a b)
  | |- context [if ?a =? ?b then _ else _] => destruct (Z.eqb_spec a b)
  | |- context [if ?c then _ else _] => destruct c eqn:?
  end.

(** One stage of an analysis that threads the pair (results, score): state
    an invariant of the results after the stage, prove it, and go on with the
    pair as an unknown that satisfies it. *)
Ltac stage Inv :=
  match goal with
  | |- context [match ?e with pair _ _ => _ end] =>
      let H := fresh "Hst" in
      assert (H : Inv (fst e));
      [ cbv beta | destruct e as [? ?]; cbv beta in H; cbn [fst] in H ]
  end.

Lemma map_push {A B : Type} (f : A -> B) (xs : list A) (x : A) :
  map f (JS.push xs x) = map f xs ++ [f x].
Proof. unfold JS.push. rewrite map_app. reflexivity. Qed.

(** ** Traditional SEO analysis *)

(** C7. On the entirely empty record (load time 500 ms) the traditional SEO
    score is exactly 15; the result entries are, in order, three errors
    (title, meta description, H1), one warning (schema) and the load-time
    entry, the only one of type success. *)
Theorem empty_record_traditional_seo :
  score (analyzeTraditionalSeo emptyRecord) = 15
  /\ map (fun r => (checkOf r, res_type r))
       (results (analyzeTraditionalSeo emptyRecord))
     = [(Some TitleLength, error); (Some MetaDescriptionLength, error);
        (Some H1Count, error); (Some SchemaPresence, warning);
        (Some LoadTimeThreshold, success)]
  /\ Forall
       (fun r =>
          match checkOf r with
          | Some LoadTimeThreshold => res_type r = success
          | _ => res_type r = error \/ res_type r = warning
          end)
       (results (analyzeTraditionalSeo emptyRecord)).
Proof.
  split; [reflexivity|]. split; [reflexivity|].
  vm_compute.
  repeat (apply Forall_cons; [auto|]). apply Forall_nil.
Qed.

(** C8, as stated, fails: on the empty record the image check appends no
    entry and the results list has five entries, not six. *)
Lemma six_results_counterexample :
  ~ (forall data : WebsiteData,
        List.length (results (analyzeTraditionalSeo data)) = 6%nat).
Proof.
  intros H. specialize (H emptyRecord). vm_compute in H. discriminate H.
Qed.

(** C8, amended. The title, meta-description, H1, schema and load-time
    checks each append exactly one entry for every record; the image check
    appends exactly one entry when the record has images and none when it has
    no image.  The results list, in the order of the checks, therefore has
    six entries for a record with images and five otherwise. *)
Theorem traditional_seo_results_shape (data : WebsiteData) :
  map checkOf (results (analyzeTraditionalSeo data))
  = [Some TitleLength; Some MetaDescriptionLength; Some H1Count]
    ++ (if JS.count (images data) =? 0 then [] else [Some ImageAltText])
    ++ [Some SchemaPresence; Some LoadTimeThreshold]
  /\ List.length (results (analyzeTraditionalSeo data))
     = (if JS.count (images data) =? 0 then 5%nat else 6%nat).
Proof.
  assert (Hmap :
    map checkOf (results (analyzeTraditionalSeo data))
    = [Some TitleLength; Some MetaDescriptionLength; Some H1Count]
      ++ (if JS.count (images data) =? 0 then [] else [Some ImageAltText])
      ++ [Some SchemaPresence; Some LoadTimeThreshold]).
  { pose proof (filter_count_le (fun img => negb (hasAlt img)) (images data)) as Hle.
    pose proof (count_nonneg (filter (fun img => negb (hasAlt img)) (images data))) as Hnn.
    unfold analyzeTraditionalSeo. cbv zeta.
    stage (fun r => map checkOf r = [Some TitleLength]).
    { repeat branch; reflexivity. }
    stage (fun r => map checkOf r = [Some TitleLength; Some MetaDescriptionLength]).
    { repeat branch; cbn [fst]; rewrite map_push, Hst; reflexivity. }
    stage (fun r => map checkOf r
                    = [Some TitleLength; Some MetaDescriptionLength; Some H1Count]).
    { repeat branch; cbn [fst]; rewrite map_push, Hst0; reflexivity. }
    stage (fun r => map checkOf r
                    = [Some TitleLength; Some MetaDescriptionLength; Some H1Count]
                      ++ (if JS.count (images data) =? 0 then []
                          else [Some ImageAltText])).
    { repeat branch; cbn [fst]; try rewrite map_push; rewrite Hst1;
        try reflexivity; exfalso; lia. }
    stage (fun r => map checkOf r
                    = ([Some TitleLength; Some MetaDescriptionLength; Some H1Count]
                       ++ (if JS.count (images data) =? 0 then []
                           else [Some ImageAltText]))
                      ++ [Some SchemaPresence]).
    { repeat branch; cbn [fst]; rewrite map_push, Hst2; reflexivity. }
    stage (fun r => map checkOf r
                    = (([Some TitleLength; Some MetaDescriptionLength; Some H1Count]
                        ++ (if JS.count (images data) =? 0 then []
                            else [Some ImageAltText]))
                       ++ [Some SchemaPresence]) ++ [Some LoadTimeThreshold]).
    { repeat branch; cbn [fst]; rewrite map_push, Hst3; reflexivity. }
    cbn [results]. rewrite Hst4. rewrite <- !app_assoc. reflexivity. }
  split; [exact Hmap|].
  rewrite <- (length_map checkOf), Hmap.
  destruct (JS.count (images data) =? 0); reflexivity.
Qed.

(** ** Content suggestions *)

(** C9. The missing keywords, blog titles, content structure, FAQs and
    platform-visibility fields of [generateContentSuggestions] are the same
    for any two records and any two scores; the improvements are the same for
    any two records given one score, and they do vary with the score. *)
Theorem content_suggestions_static :
  (forall (data1 data2 : WebsiteData) (aiScore1 aiScore2 : Z),
      let s1 := generateContentSuggestions data1 aiScore1 in
      let s2 := generateContentSuggestions data2 aiScore2 in
      missingKeywords s1 = missingKeywords s2
      /\ blogTitles s1 = blogTitles s2
      /\ contentStructure s1 = contentStructure s2
      /\ faqs s1 = faqs s2
      /\ aiVisibility s1 = aiVisibility s2)
  /\ (forall (data1 data2 : WebsiteData) (aiScore : Z),
         aiImprovements (generateContentSuggestions data1 aiScore)
         = aiImprovements (generateContentSuggestions data2 aiScore))
  /\ (forall data : WebsiteData,
         aiImprovements (generateContentSuggestions data 40)
         <> aiImprovements (generateContentSuggestions data 90)).
Proof.
  split; [|split].
  - intros. repeat split; reflexivity.
  - intros. reflexivity.
  - intros data H. vm_compute in H. discriminate H.
Qed.

(** ** Comparator *)

(** C4. The three differences are side B minus side A; the better performer
    is url2 when their sum is strictly positive and url1 otherwise.  Swapping
    the two sides negates the three differences and, when the sum of the
    original differences is not zero, changes the better performer. *)
Theorem compareWebsites_differences
  (data1 data2 : WebsiteData) (report1 report2 : AuditReport)
  (aiVisibility1 aiVisibility2 : AiVisibility) :
  let d := compareWebsites data1 report1 data2 report2 aiVisibility1 aiVisibility2 in
  let d' := compareWebsites data2 report2 data1 report1 aiVisibility2 aiVisibility1 in
  let sum := seoScoreDiff d + aiScoreDiff d + aiVisibilityDiff d in
  (seoScoreDiff d = seoScore report2 - seoScore report1
   /\ aiScoreDiff d = aiScore report2 - aiScore report1
   /\ aiVisibilityDiff d = overallScore aiVisibility2 - overallScore aiVisibility1)
  /\ (0 < sum -> betterPerformer d = "url2")
  /\ (sum <= 0 -> betterPerformer d = "url1")
  /\ (seoScoreDiff d' = - seoScoreDiff d
      /\ aiScoreDiff d' = - aiScoreDiff d
      /\ aiVisibilityDiff d' = - aiVisibilityDiff d)
  /\ (sum <> 0 ->
      (betterPerformer d = "url2" /\ betterPerformer d' = "url1")
      \/ (betterPerformer d = "url1" /\ betterPerformer d' = "url2")).
Proof.
  cbv zeta. unfold compareWebsites. cbv zeta.
  cbn [seoScoreDiff aiScoreDiff aiVisibilityDiff betterPerformer].
  repeat split; try lia.
  - intros H. destruct (Z.gtb_spec (seoScore report2 - seoScore report1
      + (aiScore report2 - aiScore report1)
      + (overallScore aiVisibility2 - overallScore aiVisibility1)) 0);
      [reflexivity | lia].
  - intros H. destruct (Z.gtb_spec (seoScore report2 - seoScore report1
      + (aiScore report2 - aiScore report1)
      + (overallScore aiVisibility2 - overallScore aiVisibility1)) 0);
      [lia | reflexivity].
  - intros H.
    destruct (Z.gtb_spec (seoScore report2 - seoScore report1
      + (aiScore report2 - aiScore report1)
      + (overallScore aiVisibility2 - overallScore aiVisibility1)) 0);
    destruct (Z.gtb_spec (seoScore report1 - seoScore report2
      + (aiScore report1 - aiScore report2)
      + (overallScore aiVisibility1 - overallScore aiVisibility2)) 0);
    try lia; [left | right]; split; reflexivity.
Qed.

Lemma compareWebsites_differences_witness :
  betterPerformer
    (compareWebsites emptyRecord (reportWithScores 15 0)
       emptyRecord (reportWithScores 45 20)
       (visibilityWithScore 13) (visibilityWithScore 30)) = "url2"
  /\ betterPerformer
       (compareWebsites emptyRecord (reportWithScores 45 20)
          emptyRecord (reportWithScores 15 0)
          (visibilityWithScore 30) (visibilityWithScore 13)) = "url1".
Proof.
  destruct (compareWebsites_differences emptyRecord emptyRecord
              (reportWithScores 15 0) (reportWithScores 45 20)
              (visibilityWithScore 13) (visibilityWithScore 30))
    as (_ & Hpos & _ & _ & Hflip).
  destruct Hflip as [[H1 H2] | [H1 H2]].
  - intros H. discriminate H.
  - split; assumption.
  - exfalso. rewrite (Hpos eq_refl) in H1. discriminate H1.
Defined.

(** C5. With seoScoreDiff, aiVisibilityDiff and aiScoreDiff the differences
    of the two reports' SEO scores, of the two assessments' overall scores
    and of the two reports' AI scores (side 2 minus side 1), the key
    differences are, in this order: the two SEO entries (title length, meta
    description) exactly when |seoScoreDiff| > 10, the two AI-visibility
    entries (scores of the factors named TL;DR & Summary and Schema Markup, or
    Not assessed) exactly when |aiVisibilityDiff| > 15, and the two GEO
    entries (H2 structure, number of schema types) exactly when
    |aiScoreDiff| > 10. *)
Theorem compareWebsites_keyDifferences
  (data1 data2 : WebsiteData) (report1 report2 : AuditReport)
  (aiVisibility1 aiVisibility2 : AiVisibility) :
  let d := compareWebsites data1 report1 data2 report2 aiVisibility1 aiVisibility2 in
  let seoDiff := seoScore report2 - seoScore report1 in
  let visibilityDiff := overallScore aiVisibility2 - overallScore aiVisibility1 in
  let aiDiff := aiScore report2 - aiScore report1 in
  (seoScoreDiff d, aiVisibilityDiff d, aiScoreDiff d)
  = (seoDiff, visibilityDiff, aiDiff)
  /\ map shown (keyDifferences d)
     = (if Z.abs seoDiff >? 10 then seoDifferences data1 data2 else [])
       ++ (if Z.abs visibilityDiff >? 15
           then visibilityDifferences (factors aiVisibility1) (factors aiVisibility2)
           else [])
       ++ (if Z.abs aiDiff >? 10 then geoDifferences data1 data2 else [])
  /\ existsb (fun k => Category.eqb (category k) Category.seo) (keyDifferences d)
     = (Z.abs seoDiff >? 10)
  /\ existsb (fun k => Category.eqb (category k) Category.visibility)
       (keyDifferences d)
     = (Z.abs visibilityDiff >? 15)
  /\ existsb (fun k => Category.eqb (category k) Category.ai) (keyDifferences d)
     = (Z.abs aiDiff >? 10).
Proof.
  cbv zeta. unfold compareWebsites. cbv zeta.
  cbn [seoScoreDiff aiScoreDiff aiVisibilityDiff keyDifferences].
  split; [reflexivity|].
  unfold seoDifferences, visibilityDifferences, geoDifferences, factorScoreText,
    JS.truthy.
  destruct (Z.abs (seoScore report2 - seoScore report1) >? 10);
    destruct (Z.abs (overallScore aiVisibility2 - overallScore aiVisibility1) >? 15);
    destruct (Z.abs (aiScore report2 - aiScore report1) >? 10);
    cbn [JS.push app map shown category aspect url1Value url2Value existsb
           Category.eqb orb];
    repeat split;
    destruct (metaDescription data1 =? "")%string;
    destruct (metaDescription data2 =? "")%string; reflexivity.
Qed.

(** The lookup by factor name: the first factor of that name gives the
    text, and a list without the name gives Not assessed. *)
Lemma factorScoreText_absent (name : string) (fs : list Factor) :
  existsb (fun f => (factor f =? name)%string) fs = false ->
  factorScoreText name fs = "Not assessed".
Proof.
  unfold factorScoreText. induction fs as [| f fs IH]; cbn; [reflexivity|].
  destruct (factor f =? name)%string; cbn; [discriminate | exact IH].
Qed.

Lemma factorScoreText_present (name : string) (fs : list Factor) :
  existsb (fun f => (factor f =? name)%string) fs = true ->
  exists f, In f fs /\ factor f = name
            /\ factorScoreText name fs = JS.toString (f_score f) +++ "/100".
Proof.
  unfold factorScoreText. induction fs as [| f fs IH]; cbn; [discriminate|].
  destruct (String.eqb_spec (factor f) name) as [E | E]; cbn.
  - intros _. exists f. auto.
  - intros H. destruct (IH H) as (g & Hin & Hn & Ht). exists g. auto.
Qed.

(** ** Recommendations *)

(** A pass of [forEach] that may push entries is a concatenation. *)
Lemma fold_left_emit {A B : Type} (step : list B -> A -> list B)
  (g : A -> list B) :
  (forall acc x, step acc x = acc ++ g x) ->
  forall xs acc, fold_left step xs acc = acc ++ flat_map g xs.
Proof.
  intros Hstep xs. induction xs as [| x xs IH]; intros acc; cbn.
  - rewrite app_nil_r. reflexivity.
  - rewrite IH, Hstep, <- app_assoc. reflexivity.
Qed.

Lemma recommendations_spec (fs : list Factor) (overall : Z) :
  generateAiVisibilityRecommendations fs overall = specRecommendations fs overall.
Proof.
  unfold generateAiVisibilityRecommendations, specRecommendations. cbv zeta.
  rewrite (fold_left_emit _ (emitted Status.warning warningTemplates)).
  2:{ intros acc f. unfold emitted, JS.push.
      destruct (Status.eqb (status f) Status.warning);
        [| rewrite app_nil_r; reflexivity].
      cbn [lookupTemplate warningTemplates].
      repeat (destruct (factor f =? _)%string; [reflexivity|]).
      rewrite app_nil_r. reflexivity. }
  rewrite (fold_left_emit _ (emitted Status.fail failTemplates)).
  2:{ intros acc f. unfold emitted, JS.push.
      destruct (Status.eqb (status f) Status.fail);
        [| rewrite app_nil_r; reflexivity].
      cbn [lookupTemplate failTemplates].
      repeat (destruct (factor f =? _)%string; [reflexivity|]).
      rewrite app_nil_r. reflexivity. }
  unfold JS.slice0, JS.push. cbn [app].
  destruct (overall <? 70); destruct (overall <? 50);
    rewrite ?app_nil_r, <- ?app_assoc; reflexivity.
Qed.

Lemma emitted_length (st : Status.t) (table : list (string * Recommendation))
  (f : Factor) :
  List.length (emitted st table f)
  = if Status.eqb (status f) st && existsb (String.eqb (factor f)) (map fst table)
    then 1%nat else 0%nat.
Proof.
  unfold emitted. destruct (Status.eqb (status f) st); [|reflexivity].
  cbn [andb]. induction table as [| [key r] table IH]; cbn; [reflexivity|].
  destruct (factor f =? key)%string; [reflexivity | exact IH].
Qed.

(** C6. The recommendations are the first eight entries of: the high-priority
    templates of the failing factors among TL;DR & Summary, Q&A Format,
    Schema Markup and Content Clarity, in the order of the factors list; then
    the medium-priority templates of the factors in warning among HTML
    Structure, Content Scannability and Readability Level; then the freshness
    tip when the overall score is below 70 and the statistics tip when it is
    below 50.  A factor contributes a template only in these cases, and the
    assessment calls the generator on its factors, which are in catalogue
    order, and on its overall score. *)
Theorem recommendations_generation (fs : list Factor) (overall : Z) :
  generateAiVisibilityRecommendations fs overall = specRecommendations fs overall
  /\ map fst failTemplates
     = ["TL;DR & Summary"; "Q&A Format"; "Schema Markup"; "Content Clarity"]
  /\ map fst warningTemplates
     = ["HTML Structure"; "Content Scannability"; "Readability Level"]
  /\ Forall (fun kr => priority (snd kr) = high) failTemplates
  /\ Forall (fun kr => priority (snd kr) = medium) warningTemplates
  /\ Forall
       (fun f =>
          List.length (emitted Status.fail failTemplates f)
          = (if Status.eqb (status f) Status.fail
                && existsb (String.eqb (factor f)) (map fst failTemplates)
             then 1%nat else 0%nat)
          /\ List.length (emitted Status.warning warningTemplates f)
             = (if Status.eqb (status f) Status.warning
                   && existsb (String.eqb (factor f)) (map fst warningTemplates)
                then 1%nat else 0%nat))
       fs
  /\ (List.length (generateAiVisibilityRecommendations fs overall) <= 8)%nat
  /\ (forall data : WebsiteData,
         let a := analyzeAiPlatformVisibility data in
         recommendations a = specRecommendations (factors a) (overallScore a)).
Proof.
  split; [apply recommendations_spec|].
  split; [reflexivity|]. split; [reflexivity|].
  split; [repeat constructor|]. split; [repeat constructor|].
  split; [|split].
  - apply Forall_forall. intros f _. split; apply emitted_length.
  - rewrite recommendations_spec. unfold specRecommendations.
    apply firstn_le_length.
  - intros data. cbv zeta. rewrite <- recommendations_spec.
    unfold analyzeAiPlatformVisibility. cbv zeta.
    cbn [recommendations factors overallScore]. reflexivity.
Qed.

(** ** Scores stay in range *)

Lemma sumMatches_nonneg (content : string) (patterns : list JS.RegExp) :
  0 <= sumMatches content patterns.
Proof.
  unfold sumMatches.
  assert (H : forall ps acc, 0 <= acc ->
    0 <= fold_left
           (fun total pattern => total + JS.count (regexMatch pattern content))
           ps acc).
  { induction ps as [| p ps IH]; intros acc Hacc; cbn; [exact Hacc|].
    apply IH. pose proof (count_nonneg (regexMatch p content)). lia. }
  apply H. lia.
Qed.

Lemma sumCappedMatches_nonneg (w cap : Z) (content : string)
  (patterns : list JS.RegExp) :
  0 <= w -> 0 <= cap -> 0 <= sumCappedMatches w cap content patterns.
Proof.
  intros Hw Hcap. unfold sumCappedMatches.
  assert (H : forall ps acc, 0 <= acc ->
    0 <= fold_left
           (fun total pattern =>
              let matches := regexMatch pattern content in
              if JS.count matches >? 0
              then total + Z.min (JS.count matches * w) cap
              else total)
           ps acc).
  { induction ps as [| p ps IH]; intros acc Hacc; cbn; [exact Hacc|].
    apply IH. pose proof (count_nonneg (regexMatch p content)).
    destruct (JS.count (regexMatch p content) >? 0); nia. }
  apply H. lia.
Qed.

Lemma Math_round_nonneg (q : Q) : (0 <= q)%Q -> 0 <= JS.Math_round q.
Proof.
  intros Hq. unfold JS.Math_round.
  change 0 with (Qfloor 0). apply Qfloor_resp_le.
  rewrite <- (Qplus_0_r 0) at 1. apply Qplus_le_compat; [exact Hq | discriminate].
Qed.

Lemma relevance_nonneg (mentions words : Z) :
  0 <= mentions ->
  0 <= JS.Math_round ((inject_Z mentions / inject_Z (Z.max words 1)) * 15)%Q.
Proof.
  intros Hm. apply Math_round_nonneg.
  apply Qmult_le_0_compat; [| discriminate].
  apply Qle_shift_div_l.
  - change 0%Q with (inject_Z 0). rewrite <- Zlt_Qlt. lia.
  - rewrite Qmult_0_l. change 0%Q with (inject_Z 0). rewrite <- Zle_Qle. exact Hm.
Qed.

(** Name the values a bound is proved about and record that they are not
    negative. *)
Ltac name_counts :=
  repeat match goal with
    | |- context [sumMatches ?c ?p] =>
        let v := fresh "matches" in
        pose proof (sumMatches_nonneg c p);
        set (v := sumMatches c p) in *; clearbody v
    | |- context [sumCappedMatches ?w ?cap ?c ?p] =>
        let v := fresh "capped" in
        pose proof (sumCappedMatches_nonneg w cap c p ltac:(lia) ltac:(lia));
        set (v := sumCappedMatches w cap c p) in *; clearbody v
    | |- context [JS.Math_round ((inject_Z ?a / inject_Z (Z.max ?b 1)) * 15)%Q] =>
        let v := fresh "rounded" in
        pose proof (relevance_nonneg a b ltac:(unfold countIncluded, JS.count; lia));
        set (v := JS.Math_round ((inject_Z a / inject_Z (Z.max b 1)) * 15)%Q) in *;
        clearbody v
    | |- context [JS.count ?xs] =>
        let v := fresh "len" in
        pose proof (count_nonneg xs);
        set (v := JS.count xs) in *; clearbody v
    end.

Ltac nonneg := cbv zeta; unfold countIncluded; name_counts; repeat branch; lia.

(** One binding of a translated function: the bound value is not negative
    when that can be shown; the rest of the function is then considered for
    an arbitrary such value. *)
Ltac let_step :=
  lazymatch goal with
  | |- ?lo <= (let bound := ?e in @?b bound) /\ _ <= ?hi =>
      lazymatch type of e with
      | Z =>
          first
            [ let H := fresh "Hge" in
              let Hcut := fresh in
              assert (H : 0 <= e) by nonneg;
              cut (forall y : Z, 0 <= y -> lo <= b y <= hi);
              [ intros Hcut; exact (Hcut e H)
              | clear H; intros ? H; cbv beta ]
            | let Hcut := fresh in
              cut (forall y : Z, lo <= b y <= hi);
              [ intros Hcut; exact (Hcut e) | intros ?; cbv beta ] ]
      | ?T =>
          let Hcut := fresh in
          cut (forall y : T, lo <= b y <= hi);
          [ intros Hcut; exact (Hcut e) | intros ?; cbv beta ]
      end
  end.

Ltac in_range f := cbv beta delta [inRange f]; repeat let_step; lia.

Lemma assessCrawlability_range (data : WebsiteData) :
  inRange (assessCrawlability data).
Proof. in_range assessCrawlability. Qed.

Lemma assessHtmlStructure_range (data : WebsiteData) :
  inRange (assessHtmlStructure data).
Proof. in_range assessHtmlStructure. Qed.

Lemma assessContentClarity_range (data : WebsiteData) :
  inRange (assessContentClarity data).
Proof. in_range assessContentClarity. Qed.

Lemma assessScanability_range (data : WebsiteData) :
  inRange (assessScanability data).
Proof. in_range assessScanability. Qed.

Lemma assessSummarySections_range (data : WebsiteData) :
  inRange (assessSummarySections data).
Proof. in_range assessSummarySections. Qed.

Lemma assessQaFormat_range (data : WebsiteData) :
  inRange (assessQaFormat data).
Proof. in_range assessQaFormat. Qed.

Lemma assessSchemaMarkup_range (data : WebsiteData) :
  inRange (assessSchemaMarkup data).
Proof. in_range assessSchemaMarkup. Qed.

Lemma assessTrustedEntities_range (data : WebsiteData) :
  inRange (assessTrustedEntities data).
Proof. in_range assessTrustedEntities. Qed.

Lemma assessDataFormats_range (data : WebsiteData) :
  inRange (assessDataFormats data).
Proof. in_range assessDataFormats. Qed.

Lemma assessReadability_range (data : WebsiteData) :
  inRange (assessReadability data).
Proof. in_range assessReadability. Qed.

Lemma assessFreshness_range (data : WebsiteData) :
  inRange (assessFreshness data).
Proof. unfold inRange, assessFreshness. lia. Qed.

Lemma assessCredibility_range (data : WebsiteData) :
  inRange (assessCredibility data).
Proof. in_range assessCredibility. Qed.

(** One stage of an analysis, for the score: it never goes below zero. *)
Ltac stage_score :=
  match goal with
  | |- context [match ?e with pair _ _ => _ end] =>
      let H := fresh "Hsc" in
      assert (H : 0 <= snd e) by (repeat branch; cbn [snd]; lia);
      destruct e as [? ?]; cbn [snd] in H
  end.

Lemma analyzeTraditionalSeo_range (data : WebsiteData) :
  inRange (score (analyzeTraditionalSeo data)).
Proof.
  unfold inRange, analyzeTraditionalSeo. cbv zeta.
  do 6 stage_score. cbn [score]. lia.
Qed.

Lemma analyzeGeo_range (data : WebsiteData) :
  inRange (score (analyzeGeo data)).
Proof.
  unfold inRange, analyzeGeo. cbv zeta.
  do 5 stage_score. cbn [score]. lia.
Qed.

(** A property checked on every integer of an initial segment. *)
Lemma forall_below (P : Z -> bool) (n : nat) :
  forallb P (map Z.of_nat (seq 0 n)) = true ->
  forall t, 0 <= t < Z.of_nat n -> P t = true.
Proof.
  intros H t Ht. rewrite forallb_forall in H. apply H.
  rewrite <- (Z2Nat.id t) by lia. apply in_map. apply in_seq. lia.
Qed.

(** The overall score of a total between 0 and 1200 is a finite number
    between 0 and 100. *)
Lemma roundedPercentage_range (total : Z) :
  0 <= total <= 1200 -> inRange (roundedPercentage total).
Proof.
  intros Ht.
  assert (H : ((0 <=? roundedPercentage total)
               && (roundedPercentage total <=? 100)) = true).
  { apply (forall_below
             (fun t => (0 <=? roundedPercentage t) && (roundedPercentage t <=? 100))
             1201); [vm_compute; reflexivity | lia]. }
  unfold inRange. lia.
Qed.

Lemma roundedPercentage_finite (total : Z) :
  0 <= total <= 1200 ->
  Binary64.finite
    (Binary64.mul (Binary64.div (Binary64.of_Z total) (Binary64.of_Z 1200))
       (Binary64.of_Z 100)) = true.
Proof.
  intros Ht.
  apply (forall_below
           (fun t => Binary64.finite
                       (Binary64.mul
                          (Binary64.div (Binary64.of_Z t) (Binary64.of_Z 1200))
                          (Binary64.of_Z 100)))
           1201); [vm_compute; reflexivity | lia].
Qed.

Lemma exactPercentage_div (total : Z) : exactPercentage total = (total + 6) / 12.
Proof.
  unfold exactPercentage, JS.Math_round.
  assert (E : ((inject_Z total / inject_Z 1200) * 100 + (1 # 2)
               == (total + 6) # 12)%Q).
  { unfold Qeq, Qdiv, Qmult, Qplus, Qinv, inject_Z; simpl. lia. }
  rewrite (Qfloor_comp _ _ E). reflexivity.
Qed.

(** The two binary64 roundings of the source agree with the rounding of the
    exact quotient for every total but four, where the product falls just
    below the half and the source's score is one less. *)
Lemma roundedPercentage_exact (total : Z) :
  0 <= total <= 1200 ->
  roundedPercentage total
  = if existsb (Z.eqb total) [174; 342; 678; 690]
    then exactPercentage total - 1 else exactPercentage total.
Proof.
  intros Ht. rewrite !exactPercentage_div. apply Z.eqb_eq.
  apply (forall_below
           (fun t => roundedPercentage t
                     =? (if existsb (Z.eqb t) [174; 342; 678; 690]
                         then (t + 6) / 12 - 1 else (t + 6) / 12))
           1201); [vm_compute; reflexivity | lia].
Qed.

Lemma sumZ_range (xs : list Z) :
  Forall inRange xs -> 0 <= sumZ xs <= 100 * Z.of_nat (List.length xs).
Proof.
  induction 1 as [| x xs Hx _ IH]; cbn [sumZ fold_right List.length].
  - lia.
  - unfold inRange in Hx. fold (sumZ xs). lia.
Qed.

Lemma factorScores_range (data : WebsiteData) : Forall inRange (factorScores data).
Proof.
  unfold factorScores.
  repeat (apply Forall_cons;
          [ first [ apply assessCrawlability_range | apply assessHtmlStructure_range
                  | apply assessContentClarity_range | apply assessScanability_range
                  | apply assessSummarySections_range | apply assessQaFormat_range
                  | apply assessSchemaMarkup_range | apply assessTrustedEntities_range
                  | apply assessDataFormats_range | apply assessReadability_range
                  | apply assessFreshness_range | apply assessCredibility_range ] |]).
  apply Forall_nil.
Qed.

(** ** The AI-visibility assessment *)

Lemma analysis_factors (data : WebsiteData) :
  map factor (factors (analyzeAiPlatformVisibility data)) = factorCatalogue
  /\ map f_score (factors (analyzeAiPlatformVisibility data)) = factorScores data.
Proof. split; reflexivity. Qed.

Lemma analysis_overall (data : WebsiteData) :
  overallScore (analyzeAiPlatformVisibility data)
  = roundedPercentage (sumZ (factorScores data)).
Proof.
  unfold analyzeAiPlatformVisibility. cbv zeta. cbn [overallScore].
  unfold roundedPercentage. do 4 f_equal.
  unfold factorScores. cbn [sumZ fold_right]. lia.
Qed.

(** C1, amended. The assessment has exactly twelve factors, named as the
    catalogue and in its order, whose scores are those of the twelve
    assessors.  Its overall score is the sum of the twelve factor scores over
    1200, times 100, rounded to the nearest integer with halves going up,
    except when that sum is 174, 342, 678 or 690: there the two binary64
    operations of the source give a number just below the half and the
    overall score is one less (14, 28, 56 and 57). *)
Theorem overall_score_formula (data : WebsiteData) :
  let a := analyzeAiPlatformVisibility data in
  let sum := sumZ (map f_score (factors a)) in
  List.length (factors a) = 12%nat
  /\ map factor (factors a) = factorCatalogue
  /\ map f_score (factors a) = factorScores data
  /\ overallScore a
     = (if existsb (Z.eqb sum) [174; 342; 678; 690]
        then exactPercentage sum - 1 else exactPercentage sum).
Proof.
  cbv zeta. destruct (analysis_factors data) as [Hn Hs].
  split; [|split; [|split]].
  - rewrite <- (length_map factor), Hn. reflexivity.
  - exact Hn.
  - exact Hs.
  - rewrite Hs, analysis_overall. apply roundedPercentage_exact.
    pose proof (sumZ_range _ (factorScores_range data)) as H.
    cbn [factorScores List.length] in H. lia.
Qed.

(** C2. Every one of the twelve factor scores, the traditional SEO score,
    the GEO score and the overall AI-visibility score lies between 0 and
    100, for every record; the empty record is no exception. *)
Theorem scores_in_range (data : WebsiteData) :
  Forall inRange (factorScores data)
  /\ Forall (fun f => inRange (f_score f))
       (factors (analyzeAiPlatformVisibility data))
  /\ inRange (score (analyzeTraditionalSeo data))
  /\ inRange (score (analyzeGeo data))
  /\ inRange (overallScore (analyzeAiPlatformVisibility data)).
Proof.
  pose proof (factorScores_range data) as Hfs.
  split; [exact Hfs|]. split; [|split; [|split]].
  - apply Forall_map. rewrite (proj2 (analysis_factors data)). exact Hfs.
  - apply analyzeTraditionalSeo_range.
  - apply analyzeGeo_range.
  - rewrite analysis_overall. apply roundedPercentage_range.
    pose proof (sumZ_range _ Hfs) as H. cbn [factorScores List.length] in H. lia.
Qed.

Lemma status_of_score (z : Z) :
  let st := if z >=? 80 then Status.pass
            else if z >=? 50 then Status.warning else Status.fail in
  (st = Status.pass <-> 80 <= z)
  /\ (st = Status.warning <-> 50 <= z < 80)
  /\ (st = Status.fail <-> z < 50).
Proof.
  cbv zeta. destruct (Z.geb_spec z 80); [| destruct (Z.geb_spec z 50)];
    repeat split; intros; try lia; try reflexivity; try discriminate.
Qed.

(** C3. The assessment lists the twelve factors of the catalogue, each with
    the score of its assessor, and for each of them the status is pass
    exactly when the score is at least 80, warning exactly when it is at
    least 50 and below 80, and fail exactly when it is below 50. *)
Theorem status_thresholds (data : WebsiteData) :
  let a := analyzeAiPlatformVisibility data in
  map factor (factors a) = factorCatalogue
  /\ map f_score (factors a) = factorScores data
  /\ Forall
       (fun f =>
          (status f = Status.pass <-> 80 <= f_score f)
          /\ (status f = Status.warning <-> 50 <= f_score f < 80)
          /\ (status f = Status.fail <-> f_score f < 50))
       (factors a).
Proof.
  cbv zeta. destruct (analysis_factors data) as [Hn Hs].
  split; [exact Hn|]. split; [exact Hs|].
  unfold analyzeAiPlatformVisibility. cbv zeta. cbn [factors JS.push app].
  repeat (apply Forall_cons; [cbn [status f_score]; apply status_of_score|]).
  apply Forall_nil.
Qed.

(** ** Freshness *)

Lemma weighted_terms_nonneg (content : string) (terms : list (string * Z)) :
  Forall (fun tw => 0 <= snd tw) terms ->
  forall acc, 0 <= acc ->
  0 <= fold_left
         (fun freshnessScore '(term, weight) =>
            if JS.includes content term then freshnessScore + weight
            else freshnessScore)
         terms acc.
Proof.
  induction 1 as [| [term weight] terms Hw _ IH]; intros acc Hacc; cbn.
  - exact Hacc.
  - apply IH. cbn in Hw. destruct (JS.includes content term); lia.
Qed.

(** C10. The Content Freshness score is at least 5 for every record: the
    stale-year penalty, at most 20 points, is subtracted from a sum that
    starts at 10 and only grows, and the result is clamped to [5, 100]
    afterwards; before the clamp the score can be as low as -10. *)
Theorem freshness_at_least_5 (data : WebsiteData) :
  5 <= assessFreshness data <= 100
  /\ assessFreshness data = Z.max 5 (Z.min 100 (freshnessRaw data))
  /\ -10 <= freshnessRaw data <= 115.
Proof.
  split; [unfold assessFreshness; lia|]. split; [reflexivity|].
  cbv beta delta [freshnessRaw]. cbv zeta. unfold countIncluded.
  match goal with
  | |- context [fold_left ?f ?terms 0] =>
      pose proof (weighted_terms_nonneg (JS.toLowerCase (content data)) terms
                    ltac:(repeat constructor; cbn; lia) 0 ltac:(lia));
      set (freshnessScore := fold_left f terms 0) in *; clearbody freshnessScore
  end.
  name_counts. lia.
Qed.

(** * Further properties of the engine *)

(** One stage of an analysis, for an invariant of the pair (results, score). *)
Ltac stage_pair Inv :=
  match goal with
  | |- context [match ?e with pair _ _ => _ end] =>
      let H := fresh "Hpr" in
      assert (H : Inv (fst e) (snd e));
      [ cbv beta | destruct e as [? ?]; cbv beta in H; cbn [fst snd] in H ]
  end.

(** ** Traditional SEO: the full score *)

Lemma full_marks_push (k : nat) (M : Z) (r : list SeoResult) (s : Z)
  (e : SeoResult) (p pmax : Z) :
  fullMarksInv k M r s -> p <= pmax -> (p = pmax <-> isSuccess e = true) ->
  fullMarksInv (S k) (M + pmax) (JS.push r e) (s + p).
Proof.
  intros (Hlen & Hs & Hiff) Hp He. unfold fullMarksInv, JS.push.
  rewrite length_app, forallb_app. cbn [List.length forallb].
  rewrite andb_true_r, andb_true_iff.
  split; [lia|]. split; [lia|]. split.
  - intros Heq. assert (s = M) by lia. assert (p = pmax) by lia.
    destruct Hiff as [Hiff _]. destruct (Hiff H) as [Hall Hk].
    destruct He as [He _]. split; [split; [exact Hall | exact (He H0)] | lia].
  - intros [[Hall Hsucc] Hk]. assert (Hk' : List.length r = k) by lia.
    destruct Hiff as [_ Hiff]. destruct He as [_ He].
    rewrite (Hiff (conj Hall Hk')), (He Hsucc). reflexivity.
Qed.

Lemma full_marks_push0 (k : nat) (M : Z) (r : list SeoResult) (s : Z)
  (e : SeoResult) (pmax : Z) :
  fullMarksInv k M r s -> 0 < pmax -> isSuccess e = false ->
  fullMarksInv (S k) (M + pmax) (JS.push r e) s.
Proof.
  intros H Hp He. replace s with (s + 0) by lia.
  apply full_marks_push; [exact H | lia |].
  split; [lia | rewrite He; discriminate].
Qed.

Lemma full_marks_skip (k : nat) (M : Z) (r : list SeoResult) (s pmax : Z) :
  fullMarksInv k M r s -> 0 < pmax -> fullMarksInv (S k) (M + pmax) r s.
Proof.
  intros (Hlen & Hs & _) Hp. unfold fullMarksInv.
  split; [lia|]. split; [lia|]. split; [lia|]. intros [_ Hk]. lia.
Qed.

Ltac full_marks_branch :=
  cbn [fst snd];
  first
    [ eapply full_marks_push;
      [ eassumption | lia
      | cbn [isSuccess res_type]; split; intros Hx;
        first [reflexivity | discriminate Hx] ]
    | eapply full_marks_push0;
      [ eassumption | lia | reflexivity ]
    | eapply full_marks_skip; [ eassumption | lia ] ].

(** X1. The traditional SEO score is 100 exactly when the analysis reports
    six entries and every one of them is of type success. *)
Theorem traditional_full_score (data : WebsiteData) :
  score (analyzeTraditionalSeo data) = 100
  <-> forallb isSuccess (results (analyzeTraditionalSeo data)) = true
      /\ List.length (results (analyzeTraditionalSeo data)) = 6%nat.
Proof.
  assert (H0 : fullMarksInv 0 0 [] 0).
  { unfold fullMarksInv. cbn. repeat split; intros; first [lia | reflexivity]. }
  unfold analyzeTraditionalSeo. cbv zeta.
  stage_pair (fullMarksInv 1 (0 + 20)). { repeat branch; full_marks_branch. }
  stage_pair (fullMarksInv 2 (0 + 20 + 20)). { repeat branch; full_marks_branch. }
  stage_pair (fullMarksInv 3 (0 + 20 + 20 + 15)).
  { repeat branch; full_marks_branch. }
  stage_pair (fullMarksInv 4 (0 + 20 + 20 + 15 + 15)).
  { repeat branch; full_marks_branch. }
  stage_pair (fullMarksInv 5 (0 + 20 + 20 + 15 + 15 + 15)).
  { repeat branch; full_marks_branch. }
  stage_pair (fullMarksInv 6 (0 + 20 + 20 + 15 + 15 + 15 + 15)).
  { repeat branch; full_marks_branch. }
  cbn [score results]. destruct Hpr4 as (_ & Hs & Hiff).
  change (0 + 20 + 20 + 15 + 15 + 15 + 15) with 100 in Hs, Hiff.
  rewrite <- Hiff. lia.
Qed.

(** One stage of an analysis, for an upper bound of the score. *)
Ltac stage_upto M :=
  match goal with
  | |- context [match ?e with pair _ _ => _ end] =>
      let H := fresh "Hup" in
      assert (H : snd e <= M) by (repeat branch; cbn [snd]; lia);
      destruct e as [? ?]; cbn [snd] in H
  end.

(** X2. A record without images gets at most 85 points: the image check then
    awards nothing. *)
Theorem traditional_score_without_images (data : WebsiteData) :
  images data = [] -> score (analyzeTraditionalSeo data) <= 85.
Proof.
  intros Himg. unfold analyzeTraditionalSeo. cbv zeta. rewrite Himg.
  cbn [filter JS.count List.length Z.of_nat].
  stage_upto 20. stage_upto 40. stage_upto 55. stage_upto 55.
  stage_upto 70. stage_upto 85. cbn [score]. lia.
Qed.

(** ** GEO: the score and the entries *)





(** ** Improvements by score band *)

(** X4. The improvements returned for a score carry the priorities 1 to 6
    below 50 (the seventh candidate of that band is cut off), 3 to 7 from 50
    and below 75, 6 and 7 from 75 and below 85, and 8 to 10 from 85: never
    none, never more than six, always in increasing priority. *)
Theorem improvements_by_band (data : WebsiteData) (currentScore : Z) :
  map imp_priority (generateAiImprovements data currentScore)
  = if currentScore <? 50 then [1; 2; 3; 4; 5; 6]
    else if currentScore <? 75 then [3; 4; 5; 6; 7]
    else if currentScore <? 85 then [6; 7]
    else [8; 9; 10].
Proof.
  unfold generateAiImprovements. cbv zeta.
  repeat branch; first [reflexivity | exfalso; lia].
Qed.

(** ** Schema markup and summary sections *)

(** X5. The Schema Markup score is 0 exactly when the record has no schema,
    whatever schema types it lists; it reaches the pass threshold of 80
    exactly when the record has schema and lists at least two of FAQPage,
    Article and HowTo. *)
Theorem schema_markup_levels (data : WebsiteData) :
  (assessSchemaMarkup data = 0 <-> hasSchema data = false)
  /\ (80 <= assessSchemaMarkup data
      <-> hasSchema data = true /\ 2 <= bonusTypes data).
Proof.
  unfold assessSchemaMarkup, bonusTypes. cbv zeta.
  destruct (hasSchema data);
    destruct (JS.arrayIncludes (schemaTypes data) "FAQPage");
    destruct (JS.arrayIncludes (schemaTypes data) "Article");
    destruct (JS.arrayIncludes (schemaTypes data) "HowTo");
    cbn; repeat split; intros; try lia; try discriminate; try reflexivity;
    try (destruct H; (lia || discriminate)).
Qed.

(** X6. The TL;DR & Summary factor reaches the pass threshold only with all
    three of its signals (a TL;DR, a summary indicator and a conclusion),
    and the Q&A Format factor only with all three of its own (a question
    marker, an answer marker and a question heading); the score is then 100. *)
Theorem summary_and_qa_pass (data : WebsiteData) :
  let c := JS.toLowerCase (content data) in
  ((80 <=? assessSummarySections data)
   = ((JS.includes c "tl;dr" || JS.includes c "tldr")
      && (JS.includes c "summary" || JS.includes c "key points"
          || JS.includes c "takeaways")
      && (JS.includes c "conclusion" || JS.includes c "to summarize")))
  /\ ((80 <=? assessQaFormat data)
      = ((JS.includes c "q:" || JS.includes c "question:" || JS.includes c "faq")
         && (JS.includes c "a:" || JS.includes c "answer:")
         && existsb
              (fun h =>
                 JS.includes (JS.toLowerCase (text h)) "?"
                 || JS.startsWith (JS.toLowerCase (text h)) "how "
                 || JS.startsWith (JS.toLowerCase (text h)) "what "
                 || JS.startsWith (JS.toLowerCase (text h)) "why ")
              (headings data)))
  /\ (80 <= assessSummarySections data -> assessSummarySections data = 100)
  /\ (80 <= assessQaFormat data -> assessQaFormat data = 100).
Proof.
  cbv zeta.
  assert (Hex : forall (p : Heading -> bool) (hs : list Heading),
            (JS.count (filter p hs) >? 0) = existsb p hs).
  { intros p hs. induction hs as [| h hs IH]; cbn; [reflexivity|].
    destruct (p h); cbn; [| exact IH].
    unfold JS.count. cbn [List.length].
    destruct (Z.gtb_spec (Z.of_nat (S (List.length (filter p hs)))) 0);
      [reflexivity | lia]. }
  unfold assessSummarySections, assessQaFormat. cbv zeta. rewrite Hex.
  repeat match goal with
         | |- context [if ?c then _ else _] =>
             tryif is_var c then fail
             else (let b := fresh "b" in set (b := c); clearbody b)
         end.
  destruct b, b0, b1, b2, b3, b4; cbn; repeat split; intros; try lia.
Qed.

(** ** Floors of the factor scores *)

(** One binding of a translated function whose score only grows: the bound
    value stays at or above the floor [lo]. *)
Ltac floor_step :=
  lazymatch goal with
  | |- ?lo <= (let bound := ?e in @?b bound) =>
      lazymatch type of e with
      | Z =>
          first
            [ let H := fresh "Hge" in
              let Hcut := fresh in
              assert (H : lo <= e) by nonneg;
              cut (forall y : Z, lo <= y -> lo <= b y);
              [ intros Hcut; exact (Hcut e H)
              | clear H; intros ? H; cbv beta ]
            | let H := fresh "Hge" in
              let Hcut := fresh in
              assert (H : 0 <= e) by nonneg;
              cut (forall y : Z, 0 <= y -> lo <= b y);
              [ intros Hcut; exact (Hcut e H)
              | clear H; intros ? H; cbv beta ]
            | let Hcut := fresh in
              cut (forall y : Z, lo <= b y);
              [ intros Hcut; exact (Hcut e) | intros ?; cbv beta ] ]
      | ?T =>
          let Hcut := fresh in
          cut (forall y : T, lo <= b y);
          [ intros Hcut; exact (Hcut e) | intros ?; cbv beta ]
      end
  end.

Ltac floor_of f := cbv beta delta [f]; repeat floor_step; lia.

Lemma assessCrawlability_floor (data : WebsiteData) :
  20 <= assessCrawlability data.
Proof. unfold assessCrawlability. repeat branch; lia. Qed.

Lemma assessContentClarity_floor (data : WebsiteData) :
  10 <= assessContentClarity data.
Proof. floor_of assessContentClarity. Qed.

Lemma assessScanability_floor (data : WebsiteData) :
  5 <= assessScanability data.
Proof. floor_of assessScanability. Qed.

Lemma assessTrustedEntities_floor (data : WebsiteData) :
  5 <= assessTrustedEntities data.
Proof. floor_of assessTrustedEntities. Qed.

Lemma assessDataFormats_floor (data : WebsiteData) :
  5 <= assessDataFormats data.
Proof. floor_of assessDataFormats. Qed.

Lemma assessReadability_floor (data : WebsiteData) :
  35 <= assessReadability data.
Proof.
  unfold assessReadability, countIncluded. name_counts. repeat branch; lia.
Qed.

Lemma assessCredibility_floor (data : WebsiteData) :
  15 <= assessCredibility data.
Proof. floor_of assessCredibility. Qed.

Lemma roundedPercentage_floor (total : Z) :
  100 <= total <= 1200 -> 8 <= roundedPercentage total.
Proof.
  intros Ht.
  assert (H : ((total <? 100) || (8 <=? roundedPercentage total)) = true).
  { apply (forall_below
             (fun t => (t <? 100) || (8 <=? roundedPercentage t)) 1201);
      [vm_compute; reflexivity | lia]. }
  apply orb_true_iff in H. destruct H as [H | H]; lia.
Qed.

(** X7. Seven assessors never return less than a floor above zero:
    Crawlability 20, Content Clarity 10, Scannability 5, Trusted Entities 5,
    Data Extraction 5, Readability 35 and Credibility 15 (the lower clamps of
    10, 10 and 5 in Crawlability, Readability and Credibility never apply).
    With the floor 5 of Freshness the twelve scores add up to at least 100,
    and the overall score is never below 8. *)
Theorem factor_floors (data : WebsiteData) :
  20 <= assessCrawlability data
  /\ 10 <= assessContentClarity data
  /\ 5 <= assessScanability data
  /\ 5 <= assessTrustedEntities data
  /\ 5 <= assessDataFormats data
  /\ 35 <= assessReadability data
  /\ 15 <= assessCredibility data
  /\ 100 <= sumZ (factorScores data)
  /\ 8 <= overallScore (analyzeAiPlatformVisibility data).
Proof.
  pose proof (assessCrawlability_floor data).
  pose proof (assessContentClarity_floor data).
  pose proof (assessScanability_floor data).
  pose proof (assessTrustedEntities_floor data).
  pose proof (assessDataFormats_floor data).
  pose proof (assessReadability_floor data).
  pose proof (assessCredibility_floor data).
  assert (Hsum : 100 <= sumZ (factorScores data) <= 1200).
  { pose proof (sumZ_range _ (factorScores_range data)) as Hup.
    cbn [factorScores List.length] in Hup. split; [| lia].
    pose proof (assessHtmlStructure_range data) as Hh.
    pose proof (assessSummarySections_range data) as Hs.
    pose proof (assessQaFormat_range data) as Hq.
    pose proof (assessSchemaMarkup_range data) as Hm.
    pose proof (assessFreshness_range data) as Hf.
    assert (5 <= assessFreshness data) by (unfold assessFreshness; lia).
    unfold inRange in *. unfold factorScores. cbn [sumZ fold_right]. lia. }
  repeat (split; [assumption|]). split; [lia|].
  rewrite analysis_overall. apply roundedPercentage_floor. exact Hsum.
Qed.

(** ** The overall score grows with the factor scores *)

Lemma roundedPercentage_mono (a b : Z) :
  0 <= a -> a <= b -> b <= 1200 -> roundedPercentage a <= roundedPercentage b.
Proof.
  intros Ha Hab Hb.
  assert (Hstep : forall t, 0 <= t < 1200 ->
            roundedPercentage t <= roundedPercentage (t + 1)).
  { intros t Ht. apply Z.leb_le.
    apply (forall_below
             (fun t => roundedPercentage t <=? roundedPercentage (t + 1)) 1200);
      [vm_compute; reflexivity | lia]. }
  replace b with (a + Z.of_nat (Z.to_nat (b - a))) in * by lia.
  induction (Z.to_nat (b - a)) as [| n IH]; [rewrite Z.add_0_r; lia|].
  rewrite Nat2Z.inj_succ in *.
  transitivity (roundedPercentage (a + Z.of_nat n)); [apply IH; lia|].
  replace (a + Z.succ (Z.of_nat n)) with (a + Z.of_nat n + 1) by lia.
  apply Hstep. lia.
Qed.

Lemma sumZ_mono (xs ys : list Z) : Forall2 Z.le xs ys -> sumZ xs <= sumZ ys.
Proof.
  induction 1 as [| x y xs ys Hxy _ IH]; cbn [sumZ fold_right]; [lia|].
  fold (sumZ xs). fold (sumZ ys). lia.
Qed.

(** X8. If no factor of a record scores lower than the same factor of another
    record, its overall score is not lower either: the rounding of the
    overall score never reverses an improvement. *)
Theorem overall_score_monotone (data1 data2 : WebsiteData) :
  Forall2 Z.le (factorScores data1) (factorScores data2) ->
  overallScore (analyzeAiPlatformVisibility data1)
  <= overallScore (analyzeAiPlatformVisibility data2).
Proof.
  intros Hle. rewrite !analysis_overall.
  pose proof (sumZ_range _ (factorScores_range data1)) as H1.
  pose proof (sumZ_range _ (factorScores_range data2)) as H2.
  cbn [factorScores List.length] in H1, H2.
  apply roundedPercentage_mono; [lia | apply sumZ_mono; exact Hle | lia].
Qed.

(** ** Comparing a page with itself, and the handlers *)

(** X9. A page compared with itself shows no difference: the three diffs are
    0, no key difference is listed, and the first URL is named the better
    performer. *)
Theorem compareWebsites_self (data : WebsiteData) (report : AuditReport)
  (aiVisibility_ : AiVisibility) :
  compareWebsites data report data report aiVisibility_ aiVisibility_
  = mkDifferences 0 0 0 "url1" [].
Proof.
  unfold compareWebsites. cbv zeta. rewrite !Z.sub_diag. reflexivity.
Qed.




Lemma analyzeHandler_scores_range (url_ : string)
  (includeTraditionalSeo includeGeo includeContentSuggestions : bool)
  (websiteData : WebsiteData) :
  let r := analyzeHandler url_ includeTraditionalSeo includeGeo
             includeContentSuggestions websiteData in
  inRange (seoScore r) /\ inRange (aiScore r).
Proof.
  cbv zeta. unfold analyzeHandler. cbv zeta. cbn [seoScore aiScore].
  pose proof (analyzeTraditionalSeo_range websiteData) as Ht.
  pose proof (analyzeGeo_range websiteData) as Hg.
  destruct includeTraditionalSeo, includeGeo; cbn [score];
    unfold inRange in *; split; lia.
Qed.

Lemma overallScore_range (data : WebsiteData) :
  inRange (overallScore (analyzeAiPlatformVisibility data)).
Proof.
  rewrite analysis_overall. apply roundedPercentage_range.
  pose proof (sumZ_range _ (factorScores_range data)) as H.
  cbn [factorScores List.length] in H. lia.
Qed.


(** X11. When the GEO analysis is left out of a request and the content
    suggestions are kept, the suggested improvements are those of a score
    of 0, the six of the lowest band, whatever the page. *)
Theorem analyzeHandler_improvements_without_geo (url_ : string)
  (includeTraditionalSeo : bool) (websiteData : WebsiteData) :
  let r := analyzeHandler url_ includeTraditionalSeo false true websiteData in
  aiScore r = 0
  /\ aiImprovements (contentSuggestions r)
     = generateAiImprovements emptyRecord 0
  /\ map imp_priority (aiImprovements (contentSuggestions r)) = [1; 2; 3; 4; 5; 6].
Proof.
  cbv zeta. unfold analyzeHandler. cbv zeta.
  cbn [aiScore contentSuggestions score].
  repeat split; reflexivity.
Qed.

(** X12. The three diffs of the compare handler are between -100 and 100,
    whatever the flags and the pages; for twice the same page they are 0,
    with no key difference and url1 as the better performer. *)
Theorem compareHandler_diffs (url1 url2 : string)
  (includeTraditionalSeo includeGeo includeContentSuggestions : bool)
  (websiteData1 websiteData2 : WebsiteData) :
  let d := compareHandler url1 url2 includeTraditionalSeo includeGeo
             includeContentSuggestions websiteData1 websiteData2 in
  let d0 := compareHandler url1 url2 includeTraditionalSeo includeGeo
              includeContentSuggestions websiteData1 websiteData1 in
  -100 <= seoScoreDiff d <= 100
  /\ -100 <= aiScoreDiff d <= 100
  /\ -100 <= aiVisibilityDiff d <= 100
  /\ (seoScoreDiff d0, aiScoreDiff d0, aiVisibilityDiff d0) = (0, 0, 0)
  /\ keyDifferences d0 = []
  /\ betterPerformer d0 = "url1".
Proof.
  cbv zeta.
  pose proof (analyzeHandler_scores_range url1 includeTraditionalSeo includeGeo
                includeContentSuggestions websiteData1) as (Hs1 & Ha1).
  pose proof (analyzeHandler_scores_range url2 includeTraditionalSeo includeGeo
                includeContentSuggestions websiteData2) as (Hs2 & Ha2).
  pose proof (overallScore_range websiteData1) as Hv1.
  pose proof (overallScore_range websiteData2) as Hv2.
  unfold inRange in *. cbv zeta in *.
  split; [| split; [| split]].
  - unfold compareHandler, compareWebsites. cbv zeta. cbn [seoScoreDiff]. lia.
  - unfold compareHandler, compareWebsites. cbv zeta. cbn [aiScoreDiff]. lia.
  - unfold compareHandler, compareWebsites. cbv zeta. cbn [aiVisibilityDiff]. lia.
  - unfold compareHandler, compareWebsites. cbv zeta.
    cbn [seoScoreDiff aiScoreDiff aiVisibilityDiff keyDifferences betterPerformer].
    unfold analyzeHandler. cbv zeta. cbn [seoScore aiScore].
    rewrite !Z.sub_diag. repeat split; reflexivity.
Qed.

End Engine.

(** ** The engine on concrete records *)

(** The twelve factor scores of the empty record, and its overall score. *)
Example empty_record_factor_scores :
  factorScores 2025 noMatch noSplit emptyRecord
  = [70; 0; 15; 5; 0; 0; 0; 5; 5; 35; 10; 15]
  /\ overallScore (analyzeAiPlatformVisibility 2025 noMatch noSplit emptyRecord) = 13
  /\ score (analyzeGeo noTest emptyRecord) = 0.
Proof. vm_compute. repeat split. Qed.

(** A total of 174: the exact quotient 14.5 would round to 15, the two
    binary64 operations give a number just below 14.5 and the overall score
    is 14. *)
Example overall_score_at_174 :
  sumZ (factorScores 2025 noMatch noSplit record174) = 174
  /\ overallScore (analyzeAiPlatformVisibility 2025 noMatch noSplit record174) = 14
  /\ exactPercentage 174 = 15.
Proof. vm_compute. repeat split. Qed.

(** C1, as stated, fails: for this record the twelve factor scores add up to
    174, whose quotient 14.5 rounds to 15, and the overall score is 14. *)
Lemma overall_score_counterexample :
  overallScore (analyzeAiPlatformVisibility 2025 noMatch noSplit record174)
  <> exactPercentage
       (sumZ (map f_score
                (factors (analyzeAiPlatformVisibility 2025 noMatch noSplit
                            record174)))).
Proof. vm_compute. discriminate. Qed.

(** Before the clamp the Freshness score of a page that only mentions the
    stale years is negative; the assessor returns the floor, 5. *)
Example freshness_stale_years :
  freshnessRaw 2025 noMatch staleRecord = -10
  /\ assessFreshness 2025 noMatch staleRecord = 5.
Proof. vm_compute. repeat split. Qed.

(** Witness of X2. *)
Lemma traditional_score_without_images_witness :
  images emptyRecord = [] /\ score (analyzeTraditionalSeo emptyRecord) <= 85.
Proof.
  split; [reflexivity|].
  apply (traditional_score_without_images emptyRecord). reflexivity.
Defined.

(** Witness of X8: the empty record and the same record with schema. *)
Lemma overall_score_monotone_witness :
  Forall2 Z.le (factorScores 2025 noMatch noSplit emptyRecord)
    (factorScores 2025 noMatch noSplit schemaRecord)
  /\ overallScore (analyzeAiPlatformVisibility 2025 noMatch noSplit emptyRecord)
     <= overallScore (analyzeAiPlatformVisibility 2025 noMatch noSplit schemaRecord).
Proof.
  assert (H : Forall2 Z.le (factorScores 2025 noMatch noSplit emptyRecord)
                (factorScores 2025 noMatch noSplit schemaRecord)).
  { replace (factorScores 2025 noMatch noSplit emptyRecord)
      with [70; 0; 15; 5; 0; 0; 0; 5; 5; 35; 10; 15] by (vm_compute; reflexivity).
    replace (factorScores 2025 noMatch noSplit schemaRecord)
      with [70; 0; 15; 5; 0; 0; 85; 5; 5; 35; 10; 15] by (vm_compute; reflexivity).
    repeat (apply Forall2_cons; [lia|]). apply Forall2_nil. }
  split; [exact H|].
  apply (overall_score_monotone 2025 noMatch noSplit emptyRecord schemaRecord H).
Defined.

(** * The in-memory storage *)

Lemma get_set_same {V : Type} (m : JSMap.t V) (k : Z) (v : V) :
  JSMap.get (JSMap.set m k v) k = Some v.
Proof.
  induction m as [| [k' v'] m IH]; cbn.
  - rewrite Z.eqb_refl. reflexivity.
  - destruct (Z.eqb_spec k' k) as [E | E]; cbn.
    + rewrite E, Z.eqb_refl. reflexivity.
    + destruct (Z.eqb_spec k' k); [contradiction | exact IH].
Qed.

Lemma get_set_other {V : Type} (m : JSMap.t V) (k k' : Z) (v : V) :
  k' <> k -> JSMap.get (JSMap.set m k v) k' = JSMap.get m k'.
Proof.
  intros Hne. induction m as [| [k0 v0] m IH]; cbn.
  - destruct (Z.eqb_spec k k'); [congruence | reflexivity].
  - destruct (Z.eqb_spec k0 k) as [E | E]; cbn.
    + subst k0. destruct (Z.eqb_spec k k'); [congruence | reflexivity].
    + destruct (Z.eqb_spec k0 k'); [reflexivity | exact IH].
Qed.

Lemma set_fresh {V : Type} (m : JSMap.t V) (k : Z) (v : V) :
  ~ In k (map fst m) -> JSMap.set m k v = m ++ [(k, v)].
Proof.
  induction m as [| [k' v'] m IH]; cbn; intros Hnot; [reflexivity|].
  destruct (Z.eqb_spec k' k) as [E | E]; [tauto|].
  rewrite IH by tauto. reflexivity.
Qed.

Lemma get_absent {V : Type} (m : JSMap.t V) (k : Z) :
  ~ In k (map fst m) -> JSMap.get m k = None.
Proof.
  induction m as [| [k' v'] m IH]; cbn; intros Hnot; [reflexivity|].
  destruct (Z.eqb_spec k' k) as [E | E]; [tauto | apply IH; tauto].
Qed.

Lemma get_present {V : Type} (m : JSMap.t V) (k : Z) :
  In k (map fst m) -> exists v, JSMap.get m k = Some v.
Proof.
  induction m as [| [k' v'] m IH]; cbn; intros Hin; [contradiction|].
  destruct (Z.eqb_spec k' k) as [E | E]; [eauto|].
  apply IH. destruct Hin; [contradiction | assumption].
Qed.

Lemma keys_range (n : nat) (k : Z) :
  In k (map Z.of_nat (seq 1 n)) <-> 1 <= k <= Z.of_nat n.
Proof.
  rewrite in_map_iff. split.
  - intros (i & Hi & Hin). apply in_seq in Hin. lia.
  - intros Hk. exists (Z.to_nat k). split; [lia | apply in_seq; lia].
Qed.

Lemma currentId_fresh (s : MemStorage.t) :
  MemStorage.wellFormed s -> ~ In (MemStorage.currentId s) (map fst (MemStorage.reports s)).
Proof.
  intros (Hkeys & Hid & _). rewrite Hkeys, keys_range. lia.
Qed.

Lemma create_reports (now : Z) (r : AuditReport) (s : MemStorage.t) :
  MemStorage.wellFormed s ->
  MemStorage.reports (fst (MemStorage.createAuditReport now r s))
  = MemStorage.reports s ++ [(MemStorage.currentId s, snd (MemStorage.createAuditReport now r s))].
Proof.
  intros Hwf. destruct r. cbn. apply set_fresh. apply currentId_fresh. exact Hwf.
Qed.

Lemma create_wellFormed (now : Z) (r : AuditReport) (s : MemStorage.t) :
  MemStorage.wellFormed s -> MemStorage.wellFormed (fst (MemStorage.createAuditReport now r s)).
Proof.
  intros Hwf. pose proof (create_reports now r s Hwf) as Hrep.
  destruct Hwf as (Hkeys & Hid & Hall). unfold MemStorage.wellFormed.
  rewrite Hrep, length_app, map_app, Forall_app. cbn [List.length map fst].
  replace (List.length (MemStorage.reports s) + 1)%nat with (S (List.length (MemStorage.reports s)))
    by lia.
  rewrite seq_S, map_app, Hkeys. cbn [map].
  split; [| split; [| split]].
  - f_equal. f_equal. lia.
  - destruct r. cbn. lia.
  - exact Hall.
  - constructor; [| constructor]. destruct r. reflexivity.
Qed.

Lemma reachable_wellFormed (s : MemStorage.t) : MemStorage.reachable s -> MemStorage.wellFormed s.
Proof.
  induction 1 as [| now r s _ IH].
  - unfold MemStorage.wellFormed. cbn. repeat split. constructor.
  - apply create_wellFormed. exact IH.
Qed.

(** X13. In every MemStorage.reachable state, [MemStorage.createAuditReport] returns a report
    that carries the MemStorage.inserted fields, the creation time and an identifier
    under which nothing was stored before; afterwards [MemStorage.getAuditReport] finds
    exactly that report under it, and finds under every other identifier what
    it found before. *)
Theorem create_then_get (now : Z) (r : AuditReport) (s : MemStorage.t) :
  MemStorage.reachable s ->
  let s' := fst (MemStorage.createAuditReport now r s) in
  let report := snd (MemStorage.createAuditReport now r s) in
  MemStorage.inserted report = r /\ MemStorage.createdAt report = now
  /\ MemStorage.id report = MemStorage.currentId s
  /\ MemStorage.getAuditReport (MemStorage.id report) s = None
  /\ MemStorage.getAuditReport (MemStorage.id report) s' = Some report
  /\ (forall k, k <> MemStorage.id report -> MemStorage.getAuditReport k s' = MemStorage.getAuditReport k s)
  /\ MemStorage.reachable s'.
Proof.
  intros Hr. pose proof (reachable_wellFormed s Hr) as Hwf. cbv zeta.
  assert (Hid : MemStorage.id (snd (MemStorage.createAuditReport now r s)) = MemStorage.currentId s)
    by (destruct r; reflexivity).
  rewrite Hid. unfold MemStorage.getAuditReport.
  split; [destruct r; reflexivity|]. split; [destruct r; reflexivity|].
  split; [reflexivity|].
  split; [apply get_absent, currentId_fresh; exact Hwf|].
  split; [destruct r; cbn; apply get_set_same|].
  split; [| apply MemStorage.reachable_create; exact Hr].
  intros k Hk. destruct r; cbn. apply get_set_other. exact Hk.
Qed.

(** X14. In every MemStorage.reachable state the identifiers of the stored MemStorage.reports are
    1, 2, ..., n in the order of creation and the next identifier is n + 1;
    [MemStorage.getAuditReport] answers for an identifier exactly when it is one of
    these. *)
Theorem stored_identifiers (s : MemStorage.t) :
  MemStorage.reachable s ->
  map MemStorage.id (MemStorage.getAllAuditReports s)
  = map Z.of_nat (seq 1 (List.length (MemStorage.getAllAuditReports s)))
  /\ MemStorage.currentId s = Z.of_nat (List.length (MemStorage.getAllAuditReports s)) + 1
  /\ (forall k, MemStorage.getAuditReport k s <> None <-> 1 <= k < MemStorage.currentId s).
Proof.
  intros Hr. destruct (reachable_wellFormed s Hr) as (Hkeys & Hid & Hall).
  unfold MemStorage.getAllAuditReports, MemStorage.getAuditReport, JSMap.values.
  rewrite length_map.
  assert (Hids : map MemStorage.id (map snd (MemStorage.reports s)) = map fst (MemStorage.reports s)).
  { rewrite map_map. apply map_ext_in. intros kv Hin.
    rewrite Forall_forall in Hall. apply Hall. exact Hin. }
  split; [rewrite Hids; exact Hkeys|]. split; [exact Hid|].
  intros k. rewrite Hid. split.
  - intros Hget.
    assert (Hin : In k (map fst (MemStorage.reports s))).
    { destruct (in_dec Z.eq_dec k (map fst (MemStorage.reports s))) as [Hin | Hnot];
        [exact Hin | exfalso; apply Hget, get_absent; exact Hnot]. }
    rewrite Hkeys, keys_range in Hin. lia.
  - intros Hk.
    assert (Hin : In k (map fst (MemStorage.reports s))) by (rewrite Hkeys, keys_range; lia).
    destruct (get_present _ _ Hin) as (v & Hv). rewrite Hv. discriminate.
Qed.

(** X15. In every MemStorage.reachable state, [MemStorage.createAuditReport] adds the new report
    at the end of the MemStorage.reports listed for its URL and leaves the list of every
    other URL as it was; every report listed for a URL has that URL. *)
Theorem create_then_list_by_url (now : Z) (r : AuditReport) (s : MemStorage.t) (u : string) :
  MemStorage.reachable s ->
  let s' := fst (MemStorage.createAuditReport now r s) in
  let report := snd (MemStorage.createAuditReport now r s) in
  MemStorage.getAuditReportsByUrl u s'
  = MemStorage.getAuditReportsByUrl u s
    ++ (if (url r =? u)%string then [report] else [])
  /\ MemStorage.getAllAuditReports s' = MemStorage.getAllAuditReports s ++ [report]
  /\ Forall (fun x => MemStorage.url x = u) (MemStorage.getAuditReportsByUrl u s').
Proof.
  intros Hr. pose proof (reachable_wellFormed s Hr) as Hwf. cbv zeta.
  split; [| split].
  - unfold MemStorage.getAuditReportsByUrl, JSMap.values.
    rewrite (create_reports now r s Hwf), map_app, filter_app.
    cbn [map snd filter].
    f_equal. destruct r. cbn. destruct (_ =? u)%string; reflexivity.
  - unfold MemStorage.getAllAuditReports, JSMap.values.
    rewrite (create_reports now r s Hwf), map_app. reflexivity.
  - unfold MemStorage.getAuditReportsByUrl.
    apply Forall_forall. intros x Hx. apply filter_In in Hx.
    destruct Hx as [_ Hx]. apply String.eqb_eq. exact Hx.
Qed.

Lemma create_then_get_witness :
  MemStorage.getAuditReport 1 (fst (MemStorage.createAuditReport 0 (reportWithScores 15 0) MemStorage.empty))
  = Some (snd (MemStorage.createAuditReport 0 (reportWithScores 15 0) MemStorage.empty)).
Proof.
  exact (proj1 (proj2 (proj2 (proj2 (proj2
           (create_then_get 0 (reportWithScores 15 0) MemStorage.empty MemStorage.reachable_empty)))))).
Defined.

Lemma stored_identifiers_witness :
  MemStorage.currentId (fst (MemStorage.createAuditReport 0 (reportWithScores 15 0) MemStorage.empty)) = 2.
Proof.
  exact (proj1 (proj2
           (stored_identifiers (fst (MemStorage.createAuditReport 0 (reportWithScores 15 0) MemStorage.empty))
              (MemStorage.reachable_create 0 (reportWithScores 15 0) MemStorage.empty MemStorage.reachable_empty)))).
Defined.

Lemma create_then_list_by_url_witness :
  MemStorage.getAllAuditReports (fst (MemStorage.createAuditReport 0 (reportWithScores 15 0) MemStorage.empty))
  = [snd (MemStorage.createAuditReport 0 (reportWithScores 15 0) MemStorage.empty)].
Proof.
  exact (proj1 (proj2
           (create_then_list_by_url 0 (reportWithScores 15 0) MemStorage.empty ""
              MemStorage.reachable_empty))).
Defined.


(** * The progress indicator *)

(** X16. After n ticks the progress is min(8 n, 85): the bar stops at 85 and
    never shows completion.  The current step is the integer part of the
    progress over 25 and always designates one of the four steps; the last
    step is current from the tenth tick on. *)
Theorem progress_after_ticks (n : nat) :
  let '(progress, currentStep) := AnalysisProgress.after n in
  progress = Z.min (8 * Z.of_nat n) 85
  /\ currentStep = Z.min (8 * Z.of_nat n) 85 / 25
  /\ 0 <= currentStep < Z.of_nat (List.length AnalysisProgress.steps)
  /\ (currentStep = 3 <-> (10 <= n)%nat).
Proof.
  assert (H : AnalysisProgress.after n
              = (Z.min (8 * Z.of_nat n) 85, Z.min (8 * Z.of_nat n) 85 / 25)).
  { induction n as [| n IH]; [reflexivity|].
    cbn [AnalysisProgress.after]. rewrite IH. unfold AnalysisProgress.tick.
    cbv zeta. replace (Z.min (Z.min (8 * Z.of_nat n) 85 + 8) 85)
      with (Z.min (8 * Z.of_nat (S n)) 85) by lia. reflexivity. }
  rewrite H. split; [reflexivity|]. split; [reflexivity|].
  set (p := Z.min (8 * Z.of_nat n) 85).
  assert (Hp : 0 <= p <= 85) by (unfold p; lia).
  assert (Hdiv : 0 <= p / 25 < 4).
  { split; [apply Z.div_pos; lia | apply Z.div_lt_upper_bound; lia]. }
  split; [cbn; lia|].
  split.
  - intros H3. assert (75 <= p).
    { destruct (Z.le_gt_cases 75 p) as [Hle | Hgt]; [exact Hle|].
      assert (p / 25 < 3) by (apply Z.div_lt_upper_bound; lia). lia. }
    unfold p in *. lia.
  - intros Hn. assert (80 <= p) by (unfold p; lia).
    assert (3 <= p / 25) by (apply Z.div_le_lower_bound; lia). lia.
Qed.
